(** * pytest-profiling: the plugin of [pytest_profiling.py], embedded and verified

    The development follows the source file top to bottom: the file name
    sanitizer [clean_filename], the [Profiling] plugin object with its four
    hooks, and [pytest_configure].  Python strings are lists of code points,
    the plugin object is a record threaded through a state-and-exception
    monad, and everything the plugin delegates to (the profiler, [pstats],
    the file system, the shell pipeline of [pipes]) is part of an explicit
    world. *)

From Stdlib Require Import ZArith NArith List String Ascii Bool Lia.
From stdpp Require Import base option gmap list.

Local Open Scope N_scope.

(** ** Python strings *)

(** A Python string is its sequence of code points; [ord c] is the code point
    itself. *)
Abbreviation pystr := (list N).

Definition chr (a : ascii) : N := N_of_ascii a.

(** A literal of the source, written as a Rocq string. *)
Definition str (s : string) : pystr := map N_of_ascii (list_ascii_of_string s).

(** [sep.join(parts)] with the empty separator. *)
Definition join_empty (parts : list pystr) : pystr := concat parts.

(** [posixpath.join(a, b)]: an absolute [b] discards [a]; otherwise the two
    are glued with one slash, unless [a] is empty or already ends in one. *)
Definition startswith_slash (b : pystr) : bool :=
  match b with
  | c :: _ => c =? chr "/"
  | [] => false
  end.

Definition endswith_slash (a : pystr) : bool :=
  match last a with
  | Some c => c =? chr "/"
  | None => false
  end.

Definition os_path_join (a b : pystr) : pystr :=
  if startswith_slash b then b
  else if (match a with [] => true | _ => false end) || endswith_slash a
       then a ++ b
       else a ++ str "/" ++ b.

(** [posixpath.dirname(p)]: [head = p[:p.rfind('/') + 1]], with the
    trailing slashes stripped unless the head consists of slashes only. *)
Fixpoint upto_last_slash (p : pystr) : pystr :=
  match p with
  | [] => []
  | c :: p' => if bool_decide (chr "/" ∈ p) then c :: upto_last_slash p' else []
  end.

Fixpoint rstrip_slashes (p : pystr) : pystr :=
  match p with
  | [] => []
  | c :: p' =>
      match rstrip_slashes p' with
      | [] => if c =? chr "/" then [] else [c]
      | r => c :: r
      end
  end.

Definition os_path_dirname (p : pystr) : pystr :=
  let head := upto_last_slash p in
  if forallb (fun c => c =? chr "/") head then head else rstrip_slashes head.

(** ** [clean_filename] *)

(** The set built from the nine-character literal of the source.  In that
    Python literal the backslash before the colon is no escape, so the set
    holds both the backslash and the colon; its last character, the double
    quote, is code point 34. *)
Definition forbidden_chars : gset N :=
  list_to_set (str "/?<>\:*|" ++ [34]).

Definition underscore : pystr := str "_".

(** The generator's element for a character [c]:
    [c if c not in forbidden_chars and ord(c) < 127 else '_']. *)
Definition clean_char (c : N) : pystr :=
  if negb (bool_decide (c ∈ forbidden_chars)) && (c <? 127)
  then [c] else underscore.

Definition clean_filename (s : pystr) : pystr :=
  join_empty (map clean_char s).

(** The policy in the words of the specification: the nine listed characters
    and every code point from 127 on are removed, each replaced by one
    underscore; every other character passes through. *)
Definition spec_removed (c : N) : bool :=
  (c =? chr "/") || (c =? chr "?") || (c =? chr "<") || (c =? chr ">")
  || (c =? chr "\") || (c =? chr ":") || (c =? chr "*") || (c =? chr "|")
  || (c =? 34) || (127 <=? c).

Definition spec_sanitize_char (c : N) : N :=
  if spec_removed c then chr "_" else c.

(** An already safe ASCII name: no forbidden character, every code point
    below 127. *)
Definition safe_name (s : pystr) : Prop :=
  Forall (fun c => (c ∉ forbidden_chars) ∧ (c < 127)) s.

(** ** Exceptions, outcomes and the world around the plugin *)

(** The exceptions that can travel through the hooks.  [OSError] is what
    [os.makedirs] raises for a failure of the operating system, with its
    [errno]; [IOError] is what opening a missing statistics file raises;
    [PyException] stands for every other class (an [AssertionError] of a
    failing test, a [KeyboardInterrupt], ...), named by its class. *)
Inductive exn : Type :=
| OSError (errno : Z)
| IOError (errno : Z)
| PyException (cls : string).

Definition EEXIST : Z := 17.
Definition EACCES : Z := 13.
Definition ENOENT : Z := 2.

(** [except OSError]: does the handler's class match the exception? *)
Definition is_OSError (e : exn) : bool :=
  match e with
  | OSError _ => true
  | _ => false
  end.

Inductive outcome (A : Type) : Type :=
| Returns (a : A)
| Raises (e : exn).
Arguments Returns {A} a.
Arguments Raises {A} e.

(** The statistics back end ([cProfile] and [pstats]) is opaque to the
    plugin: a fresh profiler holds [stats_empty], and both accumulating one
    more profiled call and [pstats.Stats.add] merge two bodies of
    statistics.  [stats_is_empty] is the test [not self.stats] that
    [pstats.Stats] applies to what it has loaded. *)
Class Statistics (Stats : Type) : Type := {
  stats_empty : Stats;
  stats_merge : Stats -> Stats -> Stats;
  stats_is_empty : Stats -> bool
}.

(** What the statistics of [cProfile] and [pstats] satisfy, being
    dictionaries keyed by function: a profiler that never ran has no entry,
    and a merge has an entry as soon as one of its sides has. *)
Class StatisticsLaws (Stats : Type) `{!Statistics Stats} : Prop := {
  stats_empty_is_empty : stats_is_empty stats_empty = true;
  stats_merge_is_empty : forall a b : Stats,
    stats_is_empty (stats_merge a b) = stats_is_empty a && stats_is_empty b
}.

(** A concrete back end for examples: call counts per function name. *)
Definition call_counts : Type := gmap pystr nat.

#[export] Instance call_counts_statistics : Statistics call_counts := {|
  stats_empty := ∅;
  stats_merge := union_with (fun a b => Some (a + b)%nat);
  stats_is_empty := fun m => bool_decide (m = ∅)
|}.

(** What the terminal reporter receives. *)
Inductive output (Stats : Type) : Type :=
| Written (text : pystr)
| PrintedStats (stats : Stats) (sort_key : pystr) (restriction : nat).
Arguments Written {Stats} text.
Arguments PrintedStats {Stats} stats sort_key restriction.

(** One step of a [pipes.Template]: the command and its kind. *)
Definition step : Type := (pystr * pystr)%type.

(** One call of [os.system] made by [pipes.Template.copy]. *)
Record shell_call : Type := ShellCall {
  call_steps : list step;
  call_infile : option pystr;
  call_outfile : option pystr
}.

(** The test item handed to the per-test hook, together with what the
    downstream chain [__multicall__.execute] does for it: the statistics a
    profiler collects while the chain runs, and whether the chain returns or
    raises. *)
Record pyfuncitem (Stats : Type) : Type := PyFuncItem {
  name : pystr;
  chain_profile : Stats;
  chain_outcome : outcome unit
}.
Arguments PyFuncItem {Stats} name chain_profile chain_outcome.
Arguments name {Stats} p.
Arguments chain_profile {Stats} p.
Arguments chain_outcome {Stats} p.

(** The plugin object.  [shared_profiler] refers to a profiler object on the
    heap of the world. *)
Record Profiling : Type := MkProfiling {
  svg : bool;
  combined_only : bool;
  prof_names : list pystr;
  svg_name : option pystr;
  combined_name : option pystr;
  shared_profiler : option nat
}.

(** The world: the directories and statistics files on disk, the heap of
    [cProfile.Profile] objects in allocation order, the log of the paths
    written by [dump_stats], the log of shell pipelines run, the terminal,
    and the environment's faults: [mkdir_fault] is the exception, if any,
    with which creating a new directory fails, and [stage_status] gives the
    exit status of each pipeline command (0 for success, 127 when the shell
    does not find the command). *)
Record World (Stats : Type) : Type := MkWorld {
  dirs : gset pystr;
  files : gmap pystr Stats;
  heap : list Stats;
  dumped : list pystr;
  shell : list shell_call;
  terminal : list (output Stats);
  mkdir_fault : option exn;
  stage_status : pystr -> Z
}.
Arguments MkWorld {Stats} dirs files heap dumped shell terminal mkdir_fault stage_status.
Arguments dirs {Stats} w.
Arguments files {Stats} w.
Arguments heap {Stats} w.
Arguments dumped {Stats} w.
Arguments shell {Stats} w.
Arguments terminal {Stats} w.
Arguments mkdir_fault {Stats} w.
Arguments stage_status {Stats} w.

(** A statistics object the plugin can hold in [combined]: a profiler on the
    heap, or a [pstats.Stats] value built from files. *)
Inductive stats_obj (Stats : Type) : Type :=
| ProfileObj (ref : nat)
| StatsObj (s : Stats).
Arguments ProfileObj {Stats} ref.
Arguments StatsObj {Stats} s.

Record State (Stats : Type) : Type := MkState {
  self : Profiling;
  world : World Stats
}.
Arguments MkState {Stats} self world.
Arguments self {Stats} s.
Arguments world {Stats} s.

(** ** The state-and-exception monad of the hooks *)

Definition M (Stats A : Type) : Type := State Stats -> outcome A * State Stats.

Section Monad.
Context {Stats : Type}.

Definition ret {A : Type} (a : A) : M Stats A := fun σ => (Returns a, σ).

Definition raise {A : Type} (e : exn) : M Stats A := fun σ => (Raises e, σ).

Definition bind {A B : Type} (m : M Stats A) (k : A -> M Stats B) : M Stats B :=
  fun σ =>
    match m σ with
    | (Returns a, σ') => k a σ'
    | (Raises e, σ') => (Raises e, σ')
    end.

(** [try: body except <class>: handler]; what the body did to the state
    before it raised stays done. *)
Definition try_except {A : Type} (body : M Stats A) (catches : exn -> bool)
    (handler : M Stats A) : M Stats A :=
  fun σ =>
    match body σ with
    | (Raises e, σ') => if catches e then handler σ' else (Raises e, σ')
    | r => r
    end.

(** An outcome decided outside the plugin, passed on as it is. *)
Definition of_outcome {A : Type} (o : outcome A) : M Stats A := fun σ => (o, σ).

Definition get_self : M Stats Profiling := fun σ => (Returns (self σ), σ).

Definition get_world : M Stats (World Stats) := fun σ => (Returns (world σ), σ).

Definition modify_self (f : Profiling -> Profiling) : M Stats unit :=
  fun σ => (Returns tt, MkState (f (self σ)) (world σ)).

Definition modify_world (f : World Stats -> World Stats) : M Stats unit :=
  fun σ => (Returns tt, MkState (self σ) (f (world σ))).
End Monad.

(** The hooks are written with the monad notations of stdpp:
    [x ← m; k] and [m;; k]. *)
#[export] Instance M_ret {Stats : Type} : MRet (M Stats) := @ret Stats.
#[export] Instance M_bind {Stats : Type} : MBind (M Stats) :=
  fun A B k m => bind m k.

(** Field assignments of the plugin object and of the world. *)
Definition set_prof_names (v : list pystr) (p : Profiling) : Profiling :=
  MkProfiling (svg p) (combined_only p) v (svg_name p) (combined_name p)
    (shared_profiler p).

Definition set_svg_name (v : option pystr) (p : Profiling) : Profiling :=
  MkProfiling (svg p) (combined_only p) (prof_names p) v (combined_name p)
    (shared_profiler p).

Definition set_combined_name (v : option pystr) (p : Profiling) : Profiling :=
  MkProfiling (svg p) (combined_only p) (prof_names p) (svg_name p) v
    (shared_profiler p).

Definition set_shared_profiler (v : option nat) (p : Profiling) : Profiling :=
  MkProfiling (svg p) (combined_only p) (prof_names p) (svg_name p)
    (combined_name p) v.

Section WorldUpdates.
Context {Stats : Type}.

Definition set_dirs (v : gset pystr) (w : World Stats) : World Stats :=
  MkWorld v (files w) (heap w) (dumped w) (shell w) (terminal w)
    (mkdir_fault w) (stage_status w).

Definition set_heap (v : list Stats) (w : World Stats) : World Stats :=
  MkWorld (dirs w) (files w) v (dumped w) (shell w) (terminal w)
    (mkdir_fault w) (stage_status w).

(** The effect of a completed write of a statistics file: the file gets its
    content and the write is logged. *)
Definition store_file (path : pystr) (s : Stats) (w : World Stats) : World Stats :=
  MkWorld (dirs w) (<[path := s]> (files w)) (heap w) (dumped w ++ [path])
    (shell w) (terminal w) (mkdir_fault w) (stage_status w).

Definition log_shell (c : shell_call) (w : World Stats) : World Stats :=
  MkWorld (dirs w) (files w) (heap w) (dumped w) (shell w ++ [c])
    (terminal w) (mkdir_fault w) (stage_status w).

Definition emit (o : output Stats) (w : World Stats) : World Stats :=
  MkWorld (dirs w) (files w) (heap w) (dumped w) (shell w)
    (terminal w ++ [o]) (mkdir_fault w) (stage_status w).
End WorldUpdates.

(** Python truth values of the objects the hooks test. *)
Definition truthy_str (o : option pystr) : bool :=
  match o with
  | Some (_ :: _) => true
  | _ => false
  end.

(** [if x: body], for an [x] that is [None] or a string: the body runs on a
    non-empty string only. *)
Definition when_truthy {Stats : Type} (x : option pystr)
    (body : pystr -> M Stats unit) : M Stats unit :=
  if truthy_str x then body (default [] x) else mret tt.

(** ** What the plugin calls: [os], [cProfile], [pstats], [pipes], the reporter *)

Section Externals.
Context {Stats : Type} `{!Statistics Stats}.

(** [os.makedirs(name)] for a one-component relative name: an existing
    directory gives [OSError(EEXIST)]; otherwise the creation fails with
    the environment's fault, if there is one, or the directory appears. *)
Definition os_makedirs (name : pystr) : M Stats unit :=
  w ← get_world;
  if bool_decide (name ∈ dirs w) then raise (OSError EEXIST)
  else match mkdir_fault w with
       | Some e => raise e
       | None => modify_world (set_dirs ({[name]} ∪ dirs w))
       end.

(** [cProfile.Profile()]: a new profiler object on the heap, without any
    statistics yet. *)
Definition new_profiler (w : World Stats) : nat * World Stats :=
  (length (heap w), set_heap (heap w ++ [stats_empty]) w).

Definition cProfile_Profile : M Stats nat :=
  fun σ => let '(r, w) := new_profiler (world σ) in
           (Returns r, MkState (self σ) w).

(** [profiler.runcall(__multicall__.execute)].  [runcall] is
    [self.enable(); try: return func() finally: self.disable()]: the
    profiler accumulates what the chain did, and the chain's outcome, a
    return or an exception, is the outcome of [runcall].  Calling it on
    [None] is an [AttributeError]. *)
Definition Profile_runcall (profiler : option nat) (item : pyfuncitem Stats)
    : M Stats unit :=
  match profiler with
  | None => raise (PyException "AttributeError")
  | Some r =>
      modify_world (fun w =>
        set_heap (alter (fun s => stats_merge s (chain_profile item)) r (heap w)) w);;
      of_outcome (chain_outcome item)
  end.

(** The statistics an object holds.  References come from
    [cProfile_Profile] only, so the lookup in the heap finds the profiler. *)
Definition stats_of (w : World Stats) (obj : stats_obj Stats) : Stats :=
  match obj with
  | ProfileObj r => default stats_empty (heap w !! r)
  | StatsObj s => s
  end.

(** Can [open(path, 'wb')] create the file?  The directory of the path has
    to exist; a path without a directory part lies in the working
    directory. *)
Definition can_create (w : World Stats) (path : pystr) : bool :=
  match os_path_dirname path with
  | [] => true
  | d => bool_decide (d ∈ dirs w)
  end.

(** [f = open(path, 'wb'); marshal.dump(stats, f)]: in a missing directory
    the [open] raises and nothing is written. *)
Definition write_file (path : pystr) (s : Stats) : M Stats unit :=
  w ← get_world;
  if can_create w path then modify_world (store_file path s)
  else raise (IOError ENOENT).

(** [obj.dump_stats(path)], of a profiler and of a [pstats.Stats] alike. *)
Definition dump_stats (obj : stats_obj Stats) (path : pystr) : M Stats unit :=
  w ← get_world;
  write_file path (stats_of w obj).

(** [profiler.dump_stats(path)] on a local that holds a profiler or
    [None]. *)
Definition Profile_dump_stats (profiler : option nat) (path : pystr)
    : M Stats unit :=
  match profiler with
  | None => raise (PyException "AttributeError")
  | Some r => dump_stats (ProfileObj r) path
  end.

(** [pstats.Stats(path)], that is [load_stats]: the [open] of a missing
    file raises an [IOError]; the statistics are unmarshalled, and
    [if not self.stats: raise TypeError] refuses a file that holds none. *)
Definition pstats_Stats (path : pystr) : M Stats Stats :=
  w ← get_world;
  match files w !! path with
  | None => raise (IOError ENOENT)
  | Some s =>
      if stats_is_empty s then raise (PyException "TypeError") else mret s
  end.

(** [combined.add(path)]: [pstats.Stats(path)], with its errors, merged into
    [combined]. *)
Definition pstats_add (combined : Stats) (path : pystr) : M Stats Stats :=
  s ← pstats_Stats path;
  mret (stats_merge combined s).

(** [pipes.Template()], [t.append(cmd, kind)] and [t.copy(infile, outfile)].
    [copy] is [return os.system(self.makepipeline(infile, outfile))]: the
    shell runs the pipeline and its exit status, the one of the last
    stage, shifted into a wait status, is the return value.  A stage that
    fails or is not found changes that number; nothing is raised. *)
Definition Template : list step := [].

Definition Template_append (t : list step) (cmd kind : pystr) : list step :=
  t ++ [(cmd, kind)].

Definition pipeline_status (status : pystr -> Z) (t : list step) : Z :=
  match last t with
  | Some (cmd, _) => (256 * status cmd)%Z
  | None => 0%Z
  end.

Definition Template_copy (t : list step) (infile outfile : option pystr)
    : M Stats Z :=
  modify_world (log_shell (ShellCall t infile outfile));;
  w ← get_world;
  mret (pipeline_status (stage_status w) t).


(** [terminalreporter.write(text)]. *)
Definition terminalreporter_write (text : pystr) : M Stats unit :=
  modify_world (emit (Written text)).

(** [pstats.Stats(path, stream=terminalreporter).strip_dirs()
    .sort_stats(key).print_stats(n)]; the construction can raise as in
    [pstats_Stats]. *)
Definition print_stats (path key : pystr) (n : nat) : M Stats unit :=
  s ← pstats_Stats path;
  modify_world (emit (PrintedStats s key n)).
End Externals.

(** ** The [Profiling] plugin *)

Section Plugin.
Context {Stats : Type} `{!Statistics Stats}.

(** [Profiling.__init__(self, svg, combined_only)]. *)
Definition __init__ (svg combined_only : bool) (w : World Stats)
    : Profiling * World Stats :=
  let this := MkProfiling svg combined_only [] None None None in
  if combined_only then
    let '(r, w') := new_profiler w in
    (set_shared_profiler (Some r) this, w')
  else (this, w).

(** [try: os.makedirs('prof') except OSError: pass]: the handler names the
    class alone and looks at no [errno]. *)
Definition pytest_sessionstart : M Stats unit :=
  try_except (os_makedirs (str "prof")) is_OSError (mret tt).

(** [for prof in self.prof_names[1:]: combined.add(prof)]. *)
Fixpoint add_each (combined : Stats) (rest : list pystr) : M Stats Stats :=
  match rest with
  | [] => mret combined
  | prof :: rest' =>
      combined' ← pstats_add combined prof;
      add_each combined' rest'
  end.

Definition combined_file : pystr := os_path_join (str "prof") (str "combined.prof").

Definition svg_file : pystr := os_path_join (str "prof") (str "combined.svg").

Definition gprof2dot_cmd : pystr := str "gprof2dot -f pstats $IN".

Definition dot_cmd : pystr := str "dot -Tsvg -o $OUT".

(** The template the hook builds before [copy]. *)
Definition svg_template : list step :=
  Template_append (Template_append Template gprof2dot_cmd (str "f-"))
    dot_cmd (str "-f").

(** [combined] is [None], a profiler or a [pstats.Stats] object; neither
    class defines a length or a truth value, so [if combined:] asks whether
    it is an object at all. *)
Definition pytest_sessionfinish : M Stats unit :=
  this ← get_self;
  combined ←
    (if combined_only this then mret (ProfileObj <$> shared_profiler this)
     else match prof_names this with
          | first :: rest =>
              c ← pstats_Stats first;
              c' ← add_each c rest;
              mret (Some (StatsObj c'))
          | [] => mret None
          end);
  match combined with
  | Some c =>
      dump_stats c combined_file;;
      modify_self (set_combined_name (Some combined_file));;
      this ← get_self;
      if svg this then
        modify_self (set_svg_name (Some svg_file));;
        this ← get_self;
        Template_copy svg_template (combined_name this) (svg_name this);;
        mret tt
      else mret tt
  | None => mret tt
  end.

Definition newline : pystr := [10].

Definition pytest_terminal_summary : M Stats unit :=
  this ← get_self;
  when_truthy (combined_name this) (fun prof =>
    terminalreporter_write (str "Profiling (from " ++ prof ++ str "):" ++ newline);;
    print_stats prof (str "cumulative") 20);;
  this ← get_self;
  when_truthy (svg_name this) (fun svg =>
    terminalreporter_write (str "SVG profile in " ++ svg ++ str "." ++ newline)).

(** The path of a test's own statistics file. *)
Definition prof_path (item : pyfuncitem Stats) : pystr :=
  os_path_join (str "prof") (clean_filename (name item) ++ str ".prof").

(** The hook has no handler of its own: an exception of [runcall] leaves it
    before [dump_stats] and the [append]. *)
Definition pytest_pyfunc_call (pyfuncitem : pyfuncitem Stats) : M Stats unit :=
  this ← get_self;
  '(profiler, prof_name) ←
    (if combined_only this then mret (shared_profiler this, None)
     else
       let prof_name := prof_path pyfuncitem in
       r ← cProfile_Profile;
       mret (Some r, Some prof_name));
  Profile_runcall profiler pyfuncitem;;
  when_truthy prof_name (fun prof_name =>
    Profile_dump_stats profiler prof_name;;
    modify_self (fun p => set_prof_names (prof_names p ++ [prof_name]) p)).
End Plugin.

(** ** Options and [pytest_configure] *)

(** The three options of [pytest_addoption], all [store_true]; a
    configuration is [config.getvalue]. *)
Inductive option_name : Type :=
| profile
| profile_combined_only
| profile_svg.

Definition Config : Type := option_name -> bool.

Section Configure.
Context {Stats : Type} `{!Statistics Stats}.

(** [pytest_configure(config)]: the result is the plugin handed to
    [config.pluginmanager.register], if any. *)
Definition pytest_configure (config : Config) (w : World Stats)
    : option Profiling * World Stats :=
  let profile_enable := existsb config [profile; profile_svg] in
  if profile_enable then
    let '(plugin, w') := __init__ (config profile_svg) (config profile_combined_only) w in
    (Some plugin, w')
  else (None, w).

(** ** The host's lifecycle

    The host calls the hooks in the order of the specification's state
    machine: configuration, session start, one per-test call for each test
    item in execution order, session finish, terminal summary.  An
    exception out of a per-test call fails that test only and the loop goes
    on; an exception out of session start or session finish ends the run
    there. *)
Definition runtestloop (items : list (pyfuncitem Stats)) (σ : State Stats)
    : State Stats :=
  fold_left (fun σ item => (pytest_pyfunc_call item σ).2) items σ.

Definition session (config : Config) (items : list (pyfuncitem Stats))
    (w : World Stats) : option (outcome unit * State Stats) :=
  match pytest_configure config w with
  | (None, _) => None
  | (Some plugin, w') =>
      match pytest_sessionstart (MkState plugin w') with
      | (Raises e, σ1) => Some (Raises e, σ1)
      | (Returns _, σ1) =>
          match pytest_sessionfinish (runtestloop items σ1) with
          | (Raises e, σ3) => Some (Raises e, σ3)
          | (Returns _, σ3) => Some (pytest_terminal_summary σ3)
          end
      end
  end.
End Configure.

(** ** Concrete worlds and test items for the examples *)

Definition all_tools_work : pystr -> Z := fun _ => 0%Z.

Definition gprof2dot_missing : pystr -> Z :=
  fun cmd => if bool_decide (cmd = gprof2dot_cmd) then 127%Z else 0%Z.

(** An empty working directory in which everything works. *)
Definition fresh_world : World call_counts :=
  MkWorld ∅ ∅ [] [] [] [] None all_tools_work.

(** The working directory is not writable: no [prof], and creating it is
    refused with [EACCES]. *)
Definition readonly_world : World call_counts :=
  MkWorld ∅ ∅ [] [] [] [] (Some (OSError EACCES)) all_tools_work.

(** [gprof2dot] is not installed. *)
Definition no_gprof2dot_world : World call_counts :=
  MkWorld {[str "prof"]} ∅ [] [] [] [] None gprof2dot_missing.

(** Neither [gprof2dot] nor [dot] is installed. *)
Definition no_tools_world : World call_counts :=
  MkWorld {[str "prof"]} ∅ [] [] [] [] None (fun _ => 127%Z).

Definition test_a : pyfuncitem call_counts :=
  PyFuncItem (str "test_a") {[str "a" := 1%nat]} (Returns tt).

Definition test_b : pyfuncitem call_counts :=
  PyFuncItem (str "test_b/weird:name") {[str "a" := 2%nat; str "b" := 1%nat]} (Returns tt).

Definition test_failing : pyfuncitem call_counts :=
  PyFuncItem (str "test_fails") {[str "f" := 1%nat]}
    (Raises (PyException "AssertionError")).

Definition config_of (p c s : bool) : Config :=
  fun x => match x with
           | profile => p
           | profile_combined_only => c
           | profile_svg => s
           end.

(** ** Notions the statements use *)

Section Notions.
Context {Stats : Type} `{!Statistics Stats}.

(** [pstats.Stats] can load the path: the file is there and holds
    statistics. *)
Definition loadable (w : World Stats) (p : pystr) : Prop :=
  ∃ s, files w !! p = Some s ∧ stats_is_empty s = false.

(** Every recorded per-test path can still be loaded. *)
Definition recorded_ok (σ : State Stats) : Prop :=
  Forall (loadable (world σ)) (prof_names (self σ)).

(** The shared profiler, if the plugin has one, holds statistics: it has
    profiled something. *)
Definition shared_has_statistics (σ : State Stats) : Prop :=
  ∀ r, shared_profiler (self σ) = Some r →
       ∃ s, heap (world σ) !! r = Some s ∧ stats_is_empty s = false.

(** Session finish has a source of combined statistics: the shared profiler
    in combined-only mode, at least one recorded per-test file otherwise. *)
Definition has_combined (σ : State Stats) : Prop :=
  if combined_only (self σ) then is_Some (shared_profiler (self σ))
  else prof_names (self σ) ≠ [].

(** The paths a hook writes with [dump_stats] when run from [σ], in order. *)
Definition written_by {A : Type} (hook : M Stats A) (σ : State Stats) : list pystr :=
  drop (length (dumped (world σ))) (dumped (world (hook σ).2)).

(** Did the downstream chain of the item return? *)
Definition chain_returns (item : pyfuncitem Stats) : bool :=
  match chain_outcome item with
  | Returns _ => true
  | Raises _ => false
  end.

(** The state in which session finish leaves the plugin and the world once
    it holds combined statistics [s]. *)
Definition finished (σ : State Stats) (s : Stats) : State Stats :=
  let this := set_combined_name (Some combined_file) (self σ) in
  let w := store_file combined_file s (world σ) in
  if svg (self σ) then
    MkState (set_svg_name (Some svg_file) this)
      (log_shell (ShellCall svg_template (Some combined_file) (Some svg_file)) w)
  else MkState this w.
End Notions.

(** The plugin as constructed for a configuration, in a given world, and
    the same after session start. *)
Definition constructed (svg combined_only : bool) (w : World call_counts)
    : State call_counts :=
  let '(plugin, w') := __init__ svg combined_only w in MkState plugin w'.

Definition started (svg combined_only : bool) (w : World call_counts)
    : State call_counts :=
  (pytest_sessionstart (constructed svg combined_only w)).2.

(** Per-test mode where the directory cannot be created. *)
Definition denied_state : State call_counts := constructed false false readonly_world.

(** Combined-only mode with SVG rendering, without [gprof2dot], and without
    any tool at all. *)
Definition no_gprof2dot_state : State call_counts :=
  started true true no_gprof2dot_world.


(** Both modes after a session start that swallowed the refusal to create
    [prof]; in combined-only mode [test_a] has run since. *)
Definition unwritable_per_test_state : State call_counts :=
  started false false readonly_world.

Definition unwritable_shared_state : State call_counts :=
  runtestloop [test_a] (started false true readonly_world).

(** Combined-only mode after session start, before any test. *)
Definition shared_state : State call_counts := started false true fresh_world.

(** Per-test mode: before any test, and after [test_a] and [test_b]. *)
Definition per_test_state : State call_counts := started false false fresh_world.

Definition two_tests_state : State call_counts :=
  runtestloop [test_a; test_b] per_test_state.

(** ** Further notions: collisions, captures and the summary's lines *)

(** A character that [clean_filename] turns into, or leaves as, an
    underscore. *)
Definition to_underscore (c : N) : Prop :=
  spec_removed c = true ∨ c = chr "_".

(** Two characters that [clean_filename] cannot tell apart. *)
Definition same_after_cleaning (c d : N) : Prop :=
  c = d ∨ (to_underscore c ∧ to_underscore d).

(** What a fresh profiler holds after profiling the chain of one item. *)
Definition captured {Stats : Type} `{!Statistics Stats} (item : pyfuncitem Stats)
    : Stats :=
  stats_merge stats_empty (chain_profile item).

(** The two lines of [pytest_terminal_summary], for a statistics path and
    for an SVG path. *)
Definition profiling_header (prof : pystr) : pystr :=
  str "Profiling (from " ++ prof ++ str "):" ++ newline.

Definition svg_line (svg : pystr) : pystr :=
  str "SVG profile in " ++ svg ++ str "." ++ newline.

(** Two tests whose names differ in a forbidden character only. *)
Definition test_slash : pyfuncitem call_counts :=
  PyFuncItem (str "t/x") {[str "s" := 1%nat]} (Returns tt).

Definition test_colon : pyfuncitem call_counts :=
  PyFuncItem (str "t:x") {[str "c" := 5%nat]} (Returns tt).

(** Per-test mode in which the file recorded first has been removed from
    the disk behind the plugin's back. *)
Definition lost_record_state : State call_counts :=
  MkState (self two_tests_state)
    (MkWorld (dirs (world two_tests_state))
       (delete (prof_path test_a) (files (world two_tests_state)))
       (heap (world two_tests_state)) (dumped (world two_tests_state))
       (shell (world two_tests_state)) (terminal (world two_tests_state))
       (mkdir_fault (world two_tests_state)) (stage_status (world two_tests_state))).

(** A finished session whose combined file has been removed before the
    summary. *)
Definition lost_combined_state : State call_counts :=
  MkState (set_combined_name (Some combined_file) (self per_test_state))
    (world per_test_state).

(** * Properties *)

(** ** The file name sanitizer *)

Section SanitizerFacts.
Local Open Scope N_scope.

Local Ltac eval_chr :=
  repeat match goal with
  | |- context [ chr ?a ] =>
      let v := eval vm_compute in (chr a) in change (chr a) with v
  end.

Lemma forbidden_chars_spec (c : N) :
  c ∈ forbidden_chars ↔
  c = 47 ∨ c = 63 ∨ c = 60 ∨ c = 62 ∨ c = 92 ∨ c = 58 ∨ c = 42 ∨ c = 124 ∨ c = 34.
Proof.
  unfold forbidden_chars. rewrite elem_of_list_to_set.
  cbn. rewrite !elem_of_cons, elem_of_nil. tauto.
Qed.

(** The set test of the source and the enumeration of the specification
    decide the same characters. *)
Lemma clean_char_spec (c : N) : clean_char c = [spec_sanitize_char c].
Proof.
  unfold clean_char, spec_sanitize_char, spec_removed, underscore. eval_chr.
  change (str "_") with [95].
  destruct (bool_decide_reflect (c ∈ forbidden_chars)) as [Hin | Hout];
    rewrite forbidden_chars_spec in *; cbn [negb andb].
  - repeat (destruct Hin as [-> | Hin]; [reflexivity |]). now subst c.
  - repeat match goal with
    | |- context [ ?a =? ?b ] => destruct (N.eqb_spec a b); [ exfalso; tauto | ]
    end.
    cbn [orb]. destruct (N.ltb_spec c 127), (N.leb_spec 127 c); try lia; reflexivity.
Qed.

Lemma clean_filename_map (s : pystr) : clean_filename s = map spec_sanitize_char s.
Proof.
  unfold clean_filename, join_empty.
  induction s as [| c s IH]; [reflexivity |].
  cbn [map concat]. rewrite clean_char_spec, IH. reflexivity.
Qed.

Lemma sanitized_char_kept (c : N) :
  spec_sanitize_char (spec_sanitize_char c) = spec_sanitize_char c.
Proof.
  unfold spec_sanitize_char at 2 3. destruct (spec_removed c) eqn:E.
  - reflexivity.
  - unfold spec_sanitize_char. now rewrite E.
Qed.

Lemma safe_char_kept (c : N) :
  c ∉ forbidden_chars → c < 127 → spec_sanitize_char c = c.
Proof.
  intros Hout Hlt. pose proof (clean_char_spec c) as H. unfold clean_char in H.
  rewrite bool_decide_eq_false_2 in H by exact Hout.
  apply N.ltb_lt in Hlt. rewrite Hlt in H. cbn in H. congruence.
Qed.

(** No character of a sanitized name is a slash: the name never starts a
    new absolute path. *)
Lemma clean_filename_no_slash (s : pystr) : chr "/" ∉ clean_filename s.
Proof.
  rewrite clean_filename_map. intros Hin.
  apply list_elem_of_fmap in Hin as (c & Heq & _).
  unfold spec_sanitize_char in Heq. destruct (spec_removed c) eqn:E.
  - discriminate Heq.
  - subst c. discriminate E.
Qed.

(** C1: for every input string, [clean_filename] replaces each character
    that is one of the nine forbidden ones or has a code point of 127 or
    more by exactly one underscore and passes every other character through
    unchanged: the result is the input mapped, character by character,
    through the policy as the specification words it, so that the character
    at each position of the input decides the one at the same position of
    the output. *)
Theorem clean_filename_replaces_each (s : pystr) :
  clean_filename s = map spec_sanitize_char s
  ∧ (∀ (i : nat) (c : N), s !! i = Some c →
       clean_filename s !! i = Some (if spec_removed c then chr "_" else c)).
Proof.
  assert (Hmap : clean_filename s = map spec_sanitize_char s).
  { unfold clean_filename, join_empty.
    induction s as [| c s IH]; [reflexivity |].
    cbn [map concat]. rewrite clean_char_spec, IH. reflexivity. }
  split; [exact Hmap |].
  intros i c Hi. rewrite Hmap.
  change (map spec_sanitize_char s) with (spec_sanitize_char <$> s).
  rewrite list_lookup_fmap, Hi. reflexivity.
Qed.

Lemma clean_filename_replaces_each_witness :
  str "a/b" !! 1%nat = Some (chr "/")
  ∧ clean_filename (str "a/b") !! 1%nat = Some (chr "_").
Proof.
  assert (Hi : str "a/b" !! 1%nat = Some (chr "/")) by reflexivity.
  split; [exact Hi |].
  exact (proj2 (clean_filename_replaces_each (str "a/b")) 1%nat (chr "/") Hi).
Defined.

(** C8: [clean_filename] is idempotent, and an already safe ASCII name (no
    forbidden character, every code point below 127) is returned as it
    is. *)
Theorem clean_filename_idempotent (x : pystr) :
  clean_filename (clean_filename x) = clean_filename x
  ∧ (safe_name x → clean_filename x = x).
Proof.
  rewrite !clean_filename_map. split.
  - rewrite map_map. apply map_ext. intros c. apply sanitized_char_kept.
  - intros Hsafe. induction Hsafe as [| c s [Hout Hlt] _ IH]; [reflexivity |].
    cbn [map]. rewrite IH, safe_char_kept by assumption. reflexivity.
Qed.

Lemma clean_filename_idempotent_witness :
  safe_name (str "test_a") ∧ clean_filename (str "test_a") = str "test_a".
Proof.
  assert (Hsafe : safe_name (str "test_a")).
  { unfold safe_name. apply (bool_decide_unpack _). vm_compute. exact I. }
  split; [exact Hsafe |].
  exact (proj2 (clean_filename_idempotent (str "test_a")) Hsafe).
Defined.

(** C10: [clean_filename] preserves the length: the output has exactly as
    many characters as the input. *)
Theorem clean_filename_length (s : pystr) :
  length (clean_filename s) = length s.
Proof.
  unfold clean_filename, join_empty.
  induction s as [| c s IH]; [reflexivity |].
  cbn [map concat]. rewrite length_app, IH, clean_char_spec. reflexivity.
Qed.
End SanitizerFacts.

(** ** The hooks, one equation per case *)

Ltac unfold_m :=
  unfold mbind, M_bind, bind, mret, M_ret, ret, raise, try_except, of_outcome,
    when_truthy, get_self, get_world, modify_self, modify_world in *.

Section HookEquations.
Context {Stats : Type} `{!Statistics Stats}.
Implicit Types (σ : State Stats) (item : pyfuncitem Stats).

Lemma bind_run {A B : Type} (m : M Stats A) (k : A → M Stats B) σ :
  (m ≫= k) σ =
  match m σ with
  | (Returns a, σ') => k a σ'
  | (Raises e, σ') => (Raises e, σ')
  end.
Proof. reflexivity. Qed.

Lemma os_makedirs_cases (dir : pystr) σ :
  os_makedirs dir σ =
  if bool_decide (dir ∈ dirs (world σ)) then (Raises (OSError EEXIST), σ)
  else match mkdir_fault (world σ) with
       | Some e => (Raises e, σ)
       | None => (Returns tt,
                  MkState (self σ) (set_dirs ({[dir]} ∪ dirs (world σ)) (world σ)))
       end.
Proof.
  unfold os_makedirs. unfold_m. cbn.
  destruct (bool_decide _); [reflexivity |].
  destruct (mkdir_fault _); reflexivity.
Qed.

(** *** Where the files go *)

Lemma upto_last_slash_none (p : pystr) :
  chr "/" ∉ p → upto_last_slash p = [].
Proof.
  destruct p as [| c p]; [reflexivity |]. intros Hno. cbn [upto_last_slash].
  now rewrite bool_decide_eq_false_2 by exact Hno.
Qed.

Lemma dirname_prof (x : pystr) :
  chr "/" ∉ x → os_path_dirname (str "prof/" ++ x) = str "prof".
Proof.
  intros Hno. unfold os_path_dirname.
  assert (upto_last_slash (str "prof/" ++ x) = str "prof/") as ->; [| reflexivity].
  change (str "prof/" ++ x) with (112 :: 114 :: 111 :: 102 :: 47 :: x)%N.
  cbn [upto_last_slash].
  rewrite !bool_decide_eq_true_2 by (rewrite !elem_of_cons; auto 10).
  now rewrite (upto_last_slash_none x Hno).
Qed.

Lemma can_create_prof (w : World Stats) (x : pystr) :
  chr "/" ∉ x → can_create w (str "prof/" ++ x) = bool_decide (str "prof" ∈ dirs w).
Proof. intros Hno. unfold can_create. now rewrite (dirname_prof x Hno). Qed.

Lemma can_create_combined (w : World Stats) :
  can_create w combined_file = bool_decide (str "prof" ∈ dirs w).
Proof.
  change combined_file with (str "prof/" ++ str "combined.prof").
  apply can_create_prof. apply (bool_decide_unpack _). vm_compute. exact I.
Qed.

Lemma dump_stats_cases (obj : stats_obj Stats) (path : pystr) σ :
  dump_stats obj path σ =
  if can_create (world σ) path
  then (Returns tt, MkState (self σ) (store_file path (stats_of (world σ) obj) (world σ)))
  else (Raises (IOError ENOENT), σ).
Proof.
  unfold dump_stats, write_file. unfold_m. cbn.
  destruct (can_create (world σ) path); reflexivity.
Qed.

(** *** Loading statistics *)

Lemma pstats_Stats_found (path : pystr) (s : Stats) σ :
  files (world σ) !! path = Some s → stats_is_empty s = false →
  pstats_Stats path σ = (Returns s, σ).
Proof. intros Hs He. unfold pstats_Stats. unfold_m. cbn. now rewrite Hs, He. Qed.

Lemma pstats_Stats_missing (path : pystr) σ :
  files (world σ) !! path = None → pstats_Stats path σ = (Raises (IOError ENOENT), σ).
Proof. intros Hs. unfold pstats_Stats. unfold_m. cbn. now rewrite Hs. Qed.

Lemma pstats_Stats_empty (path : pystr) (s : Stats) σ :
  files (world σ) !! path = Some s → stats_is_empty s = true →
  pstats_Stats path σ = (Raises (PyException "TypeError"), σ).
Proof. intros Hs He. unfold pstats_Stats. unfold_m. cbn. now rewrite Hs, He. Qed.

Lemma pstats_Stats_state (path : pystr) σ : (pstats_Stats path σ).2 = σ.
Proof.
  unfold pstats_Stats. unfold_m. cbn.
  destruct (files (world σ) !! path) as [s |]; [| reflexivity].
  destruct (stats_is_empty s); reflexivity.
Qed.

Lemma add_each_found (rest : list pystr) (ss : list Stats) (c : Stats) σ :
  Forall2 (fun p s => files (world σ) !! p = Some s ∧ stats_is_empty s = false) rest ss →
  add_each c rest σ = (Returns (fold_left stats_merge ss c), σ).
Proof.
  intros Hall. revert c. induction Hall as [| p s rest ss [Hp He] _ IH]; intros c.
  - reflexivity.
  - cbn [add_each fold_left]. unfold pstats_add.
    rewrite !bind_run, (pstats_Stats_found p s σ Hp He). apply IH.
Qed.

Lemma add_each_state (rest : list pystr) (c : Stats) σ :
  (add_each c rest σ).2 = σ.
Proof.
  revert c. induction rest as [| p rest IH]; intros c; [reflexivity |].
  cbn [add_each]. unfold pstats_add. rewrite !bind_run.
  pose proof (pstats_Stats_state p σ) as Hst.
  destruct (pstats_Stats p σ) as [[s | e] σ']; cbn [snd] in Hst; subst σ'.
  - apply IH.
  - reflexivity.
Qed.

Lemma recorded_contents (w : World Stats) (l : list pystr) :
  Forall (loadable w) l →
  ∃ ss, Forall2 (fun p s => files w !! p = Some s ∧ stats_is_empty s = false) l ss.
Proof.
  induction 1 as [| p l (s & Hs & He) _ [ss IH]].
  - exists []. constructor.
  - exists (s :: ss). now constructor.
Qed.

(** *** Session finish *)

Lemma sessionfinish_shared σ (r : nat) :
  combined_only (self σ) = true → shared_profiler (self σ) = Some r →
  pytest_sessionfinish σ =
  if bool_decide (str "prof" ∈ dirs (world σ))
  then (Returns tt, finished σ (default stats_empty (heap (world σ) !! r)))
  else (Raises (IOError ENOENT), σ).
Proof.
  intros Hco Hsp. unfold pytest_sessionfinish, finished, Template_copy.
  rewrite bind_run. cbn [get_self]. rewrite Hco, Hsp, bind_run.
  change ((mret (ProfileObj <$> Some r) : M Stats _) σ)
    with (Returns (Some (@ProfileObj Stats r)), σ).
  cbn beta iota. rewrite bind_run, dump_stats_cases, can_create_combined.
  destruct (bool_decide (str "prof" ∈ dirs (world σ))); [| reflexivity].
  unfold_m. cbn. destruct (svg (self σ)); reflexivity.
Qed.

Lemma sessionfinish_merged σ (first : pystr) (rest : list pystr)
    (s0 : Stats) (ss : list Stats) :
  combined_only (self σ) = false → prof_names (self σ) = first :: rest →
  files (world σ) !! first = Some s0 → stats_is_empty s0 = false →
  Forall2 (fun p s => files (world σ) !! p = Some s ∧ stats_is_empty s = false) rest ss →
  pytest_sessionfinish σ =
  if bool_decide (str "prof" ∈ dirs (world σ))
  then (Returns tt, finished σ (fold_left stats_merge ss s0))
  else (Raises (IOError ENOENT), σ).
Proof.
  intros Hco Hnames Hfirst Hne Hrest.
  unfold pytest_sessionfinish, finished, Template_copy.
  rewrite bind_run. cbn [get_self]. rewrite Hco, Hnames, !bind_run.
  rewrite (pstats_Stats_found first s0 σ Hfirst Hne), bind_run.
  rewrite (add_each_found rest ss s0 σ Hrest).
  change ((mret (Some (StatsObj (fold_left stats_merge ss s0))) : M Stats _) σ)
    with (Returns (Some (StatsObj (fold_left stats_merge ss s0))), σ).
  cbn beta iota. rewrite bind_run, dump_stats_cases, can_create_combined.
  destruct (bool_decide (str "prof" ∈ dirs (world σ))); [| reflexivity].
  unfold_m. cbn. destruct (svg (self σ)); reflexivity.
Qed.

Lemma sessionfinish_nothing σ :
  (if combined_only (self σ) then shared_profiler (self σ) = None
   else prof_names (self σ) = []) →
  pytest_sessionfinish σ = (Returns tt, σ).
Proof.
  intros H. unfold pytest_sessionfinish. unfold_m. cbn.
  destruct (combined_only (self σ)); rewrite H; reflexivity.
Qed.

(** *** The per-test hook *)

Lemma prof_path_eq item :
  prof_path item = str "prof/" ++ clean_filename (name item) ++ str ".prof".
Proof.
  unfold prof_path, os_path_join.
  assert (startswith_slash (clean_filename (name item) ++ str ".prof") = false) as ->.
  { pose proof (clean_filename_no_slash (name item)) as Hno.
    destruct (clean_filename (name item)) as [| c s] eqn:E; [reflexivity |].
    cbn. apply N.eqb_neq. intros ->. apply Hno. left. }
  reflexivity.
Qed.

Lemma prof_path_truthy item : truthy_str (Some (prof_path item)) = true.
Proof. rewrite prof_path_eq. reflexivity. Qed.

Lemma prof_path_tail_no_slash item :
  chr "/" ∉ clean_filename (name item) ++ str ".prof".
Proof.
  intros Hin. apply elem_of_app in Hin as [Hin | Hin].
  - exact (clean_filename_no_slash _ Hin).
  - revert Hin. apply (bool_decide_unpack _). vm_compute. exact I.
Qed.

Lemma can_create_prof_path (w : World Stats) item :
  can_create w (prof_path item) = bool_decide (str "prof" ∈ dirs w).
Proof.
  rewrite prof_path_eq. apply can_create_prof, prof_path_tail_no_slash.
Qed.

Lemma alter_last {A : Type} (f : A → A) (l : list A) (x : A) :
  alter f (length l) (l ++ [x]) = l ++ [f x].
Proof. induction l as [| y l IH]; [reflexivity |]. cbn. now rewrite IH. Qed.

Lemma lookup_last {A : Type} (l : list A) (x : A) :
  (l ++ [x]) !! length l = Some x.
Proof. induction l as [| y l IH]; [reflexivity | exact IH]. Qed.

Lemma pyfunc_call_shared σ item (r : nat) :
  combined_only (self σ) = true → shared_profiler (self σ) = Some r →
  pytest_pyfunc_call item σ =
  (chain_outcome item,
   MkState (self σ)
     (set_heap (alter (fun s => stats_merge s (chain_profile item)) r (heap (world σ)))
        (world σ))).
Proof.
  intros Hco Hsp. unfold pytest_pyfunc_call, Profile_runcall. unfold_m. cbn.
  rewrite Hco, Hsp. cbn. destruct (chain_outcome item) as [[] | e]; reflexivity.
Qed.

Lemma pyfunc_call_shared_none σ item :
  combined_only (self σ) = true → shared_profiler (self σ) = None →
  pytest_pyfunc_call item σ = (Raises (PyException "AttributeError"), σ).
Proof.
  intros Hco Hsp. unfold pytest_pyfunc_call, Profile_runcall. unfold_m. cbn.
  rewrite Hco, Hsp. cbn. now destruct σ.
Qed.

Lemma pyfunc_call_per_test σ item :
  combined_only (self σ) = false →
  let captured := stats_merge stats_empty (chain_profile item) in
  let w := set_heap (heap (world σ) ++ [captured]) (world σ) in
  pytest_pyfunc_call item σ =
  match chain_outcome item with
  | Returns _ =>
      if bool_decide (str "prof" ∈ dirs (world σ))
      then (Returns tt,
            MkState (set_prof_names (prof_names (self σ) ++ [prof_path item]) (self σ))
              (store_file (prof_path item) captured w))
      else (Raises (IOError ENOENT), MkState (self σ) w)
  | Raises e => (Raises e, MkState (self σ) w)
  end.
Proof.
  intros Hco. pose proof (prof_path_truthy item) as Htruthy.
  pose proof (fun w => can_create_prof_path w item) as Hcreate.
  unfold pytest_pyfunc_call, Profile_runcall, cProfile_Profile,
    Profile_dump_stats, new_profiler.
  set (path := prof_path item) in *. remember (str "prof") as prof eqn:Hprof.
  destruct path as [| c path']; [discriminate Htruthy |].
  unfold_m. cbn. rewrite Hco. cbn. rewrite alter_last.
  destruct (chain_outcome item) as [[] | e]; [| reflexivity].
  cbn. rewrite dump_stats_cases, Hcreate. cbn.
  destruct (bool_decide (prof ∈ dirs (world σ))); [| reflexivity].
  cbn. unfold store_file, set_heap. cbn.
  rewrite lookup_last. reflexivity.
Qed.

(** *** The terminal summary *)

Lemma terminal_summary_silent σ :
  combined_name (self σ) = None → svg_name (self σ) = None →
  pytest_terminal_summary σ = (Returns tt, σ).
Proof.
  intros Hc Hs. unfold pytest_terminal_summary. unfold_m. cbn.
  rewrite Hc. cbn. rewrite Hs. reflexivity.
Qed.
End HookEquations.

(** ** Frames: what each hook leaves alone *)

Section Frames.
Context {Stats : Type} `{!Statistics Stats}.
Implicit Types (σ : State Stats) (item : pyfuncitem Stats).

Lemma finished_fields σ (s : Stats) :
  let σ' := finished σ s in
  files (world σ') = <[combined_file := s]> (files (world σ))
  ∧ dumped (world σ') = dumped (world σ) ++ [combined_file]
  ∧ heap (world σ') = heap (world σ)
  ∧ prof_names (self σ') = prof_names (self σ)
  ∧ combined_name (self σ') = Some combined_file
  ∧ svg_name (self σ') = (if svg (self σ) then Some svg_file else svg_name (self σ))
  ∧ shell (world σ') =
    (if svg (self σ)
     then shell (world σ) ++ [ShellCall svg_template (Some combined_file) (Some svg_file)]
     else shell (world σ)).
Proof. unfold finished. destruct (svg (self σ)); cbn; repeat split; reflexivity. Qed.

(** With a source of combined statistics and loadable records, session
    finish depends on the directory alone. *)
Lemma sessionfinish_with_source σ :
  recorded_ok σ → has_combined σ →
  ∃ s, pytest_sessionfinish σ =
       if bool_decide (str "prof" ∈ dirs (world σ))
       then (Returns tt, finished σ s)
       else (Raises (IOError ENOENT), σ).
Proof.
  unfold recorded_ok, has_combined. intros Hrec Hsrc.
  destruct (combined_only (self σ)) eqn:Hco.
  - destruct Hsrc as [r Hr]. eexists. exact (sessionfinish_shared σ r Hco Hr).
  - destruct (prof_names (self σ)) as [| first rest] eqn:Hnames; [done |].
    apply Forall_cons in Hrec as [(s0 & Hfirst & Hne) Hrest].
    apply recorded_contents in Hrest as [ss Hss].
    exists (fold_left stats_merge ss s0).
    now apply sessionfinish_merged with first rest.
Qed.

Lemma sessionfinish_writable σ :
  recorded_ok σ → has_combined σ → str "prof" ∈ dirs (world σ) →
  ∃ s, pytest_sessionfinish σ = (Returns tt, finished σ s).
Proof.
  intros Hrec Hsrc Hprof. destruct (sessionfinish_with_source σ Hrec Hsrc) as [s Hs].
  exists s. now rewrite Hs, bool_decide_eq_true_2.
Qed.

Lemma sessionfinish_unwritable σ :
  recorded_ok σ → has_combined σ → str "prof" ∉ dirs (world σ) →
  pytest_sessionfinish σ = (Raises (IOError ENOENT), σ).
Proof.
  intros Hrec Hsrc Hprof. destruct (sessionfinish_with_source σ Hrec Hsrc) as [s Hs].
  now rewrite Hs, bool_decide_eq_false_2.
Qed.

Lemma sessionfinish_without_source σ :
  ¬ has_combined σ → pytest_sessionfinish σ = (Returns tt, σ).
Proof.
  unfold has_combined. intros Hno. apply sessionfinish_nothing.
  destruct (combined_only (self σ)).
  - destruct (shared_profiler (self σ)); [| reflexivity]. exfalso. eauto.
  - destruct (prof_names (self σ)); [reflexivity |]. exfalso. now apply Hno.
Qed.

Lemma has_combined_dec σ : has_combined σ ∨ ¬ has_combined σ.
Proof.
  unfold has_combined. destruct (combined_only (self σ)).
  - destruct (shared_profiler (self σ)); [left; eauto | right; now intros [? ?]].
  - destruct (prof_names (self σ)); [right; tauto | left; discriminate].
Qed.

(** Session finish changes the state by [finished] or not at all. *)
Lemma sessionfinish_state σ :
  (∃ s, has_combined σ ∧ (pytest_sessionfinish σ) = (Returns tt, finished σ s))
  ∨ (pytest_sessionfinish σ).2 = σ.
Proof.
  unfold pytest_sessionfinish, has_combined, finished, Template_copy.
  rewrite bind_run. cbn [get_self].
  destruct (combined_only (self σ)) eqn:Hco.
  - destruct (shared_profiler (self σ)) as [r |] eqn:Hsp.
    + rewrite bind_run.
      change ((mret (ProfileObj <$> Some r) : M Stats _) σ)
        with (Returns (Some (@ProfileObj Stats r)), σ).
      cbn beta iota. rewrite bind_run, dump_stats_cases.
      destruct (can_create (world σ) combined_file); [| right; reflexivity].
      left. eexists. split; [eauto |].
      unfold_m. cbn. destruct (svg (self σ)); reflexivity.
    + right. reflexivity.
  - destruct (prof_names (self σ)) as [| first rest]; [right; reflexivity |].
    rewrite !bind_run.
    pose proof (pstats_Stats_state first σ) as Hst.
    destruct (pstats_Stats first σ) as [[s0 | e] σ']; cbn [snd] in Hst; subst σ';
      [| right; reflexivity].
    rewrite bind_run.
    pose proof (add_each_state rest s0 σ) as Hst.
    destruct (add_each s0 rest σ) as [[c | e] σ']; cbn [snd] in Hst; subst σ';
      [| right; reflexivity].
    change ((mret (Some (StatsObj c)) : M Stats _) σ)
      with (Returns (Some (StatsObj c)), σ).
    cbn beta iota. rewrite bind_run, dump_stats_cases.
    destruct (can_create (world σ) combined_file); [| right; reflexivity].
    left. eexists. split; [discriminate |].
    unfold_m. cbn. destruct (svg (self σ)); reflexivity.
Qed.

(** Session start touches the directories only. *)
Lemma sessionstart_frame σ :
  let σ' := (pytest_sessionstart σ).2 in
  self σ' = self σ ∧ files (world σ') = files (world σ)
  ∧ heap (world σ') = heap (world σ) ∧ dumped (world σ') = dumped (world σ)
  ∧ terminal (world σ') = terminal (world σ).
Proof.
  unfold pytest_sessionstart, try_except. rewrite os_makedirs_cases.
  destruct (bool_decide _); cbn; [tauto |].
  destruct (mkdir_fault (world σ)) as [e |]; cbn; [| tauto].
  destruct (is_OSError e); cbn; tauto.
Qed.

(** After a session start that returned, [prof] exists unless its creation
    was refused with an [OSError]. *)
Lemma sessionstart_creates σ :
  str "prof" ∈ dirs (world σ) ∨ mkdir_fault (world σ) = None →
  (pytest_sessionstart σ).1 = Returns tt
  ∧ str "prof" ∈ dirs (world (pytest_sessionstart σ).2).
Proof.
  intros Hok. unfold pytest_sessionstart, try_except. rewrite os_makedirs_cases.
  destruct (bool_decide_reflect (str "prof" ∈ dirs (world σ))) as [Hin | Hout].
  - unfold_m. cbn. auto.
  - destruct Hok as [Hin | ->]; [contradiction |]. cbn. split; [reflexivity | set_solver].
Qed.

(** The terminal summary touches the terminal only. *)
Lemma terminal_summary_frame σ :
  let σ' := (pytest_terminal_summary σ).2 in
  self σ' = self σ ∧ files (world σ') = files (world σ)
  ∧ heap (world σ') = heap (world σ) ∧ dumped (world σ') = dumped (world σ).
Proof.
  unfold pytest_terminal_summary, print_stats, pstats_Stats, terminalreporter_write.
  unfold_m. cbn.
  destruct (truthy_str (combined_name (self σ))); cbn.
  - destruct (files (world σ) !! default [] (combined_name (self σ))) as [s |]; cbn;
      [| tauto].
    destruct (stats_is_empty s); cbn; [tauto |].
    destruct (truthy_str (svg_name (self σ))); cbn; tauto.
  - destruct (truthy_str (svg_name (self σ))); cbn; tauto.
Qed.
End Frames.

(** ** The test loop *)

Section TestLoop.
Context {Stats : Type} `{!Statistics Stats}.
Implicit Types (σ : State Stats) (item : pyfuncitem Stats).

Lemma pyfunc_call_shared_frame σ item :
  combined_only (self σ) = true →
  let σ' := (pytest_pyfunc_call item σ).2 in
  self σ' = self σ ∧ files (world σ') = files (world σ)
  ∧ dumped (world σ') = dumped (world σ)
  ∧ length (heap (world σ')) = length (heap (world σ))
  ∧ terminal (world σ') = terminal (world σ).
Proof.
  intros Hco. destruct (shared_profiler (self σ)) as [r |] eqn:Hsp.
  - rewrite (pyfunc_call_shared σ item r Hco Hsp). cbn.
    rewrite length_alter. tauto.
  - rewrite (pyfunc_call_shared_none σ item Hco Hsp). cbn. tauto.
Qed.

Lemma runtestloop_shared_frame (items : list (pyfuncitem Stats)) σ :
  combined_only (self σ) = true →
  let σ' := runtestloop items σ in
  self σ' = self σ ∧ files (world σ') = files (world σ)
  ∧ dumped (world σ') = dumped (world σ)
  ∧ length (heap (world σ')) = length (heap (world σ))
  ∧ terminal (world σ') = terminal (world σ).
Proof.
  revert σ. induction items as [| item items IH]; intros σ Hco; [cbn; tauto |].
  destruct (pyfunc_call_shared_frame σ item Hco) as (Hs & Hf & Hd & Hh & Ht).
  change (runtestloop (item :: items) σ)
    with (runtestloop items (pytest_pyfunc_call item σ).2).
  destruct (IH (pytest_pyfunc_call item σ).2) as (Hs' & Hf' & Hd' & Hh' & Ht').
  { now rewrite Hs. }
  cbn zeta. rewrite Hs', Hf', Hd', Hh', Ht'. tauto.
Qed.

(** No per-test call creates or removes a directory. *)
Lemma pyfunc_call_dirs σ item :
  dirs (world (pytest_pyfunc_call item σ).2) = dirs (world σ).
Proof.
  destruct (combined_only (self σ)) eqn:Hco.
  - destruct (shared_profiler (self σ)) as [r |] eqn:Hsp.
    + now rewrite (pyfunc_call_shared σ item r Hco Hsp).
    + now rewrite (pyfunc_call_shared_none σ item Hco Hsp).
  - rewrite (pyfunc_call_per_test σ item Hco).
    destruct (chain_outcome item); [| reflexivity].
    destruct (bool_decide _); reflexivity.
Qed.

Lemma runtestloop_dirs (items : list (pyfuncitem Stats)) σ :
  dirs (world (runtestloop items σ)) = dirs (world σ).
Proof.
  revert σ. induction items as [| item items IH]; intros σ; [reflexivity |].
  change (runtestloop (item :: items) σ)
    with (runtestloop items (pytest_pyfunc_call item σ).2).
  rewrite IH. apply pyfunc_call_dirs.
Qed.

Lemma pyfunc_call_per_test_returns σ item :
  combined_only (self σ) = false → str "prof" ∈ dirs (world σ) →
  chain_returns item = true →
  let σ' := (pytest_pyfunc_call item σ).2 in
  (pytest_pyfunc_call item σ).1 = Returns tt
  ∧ files (world σ') =
    <[prof_path item := stats_merge stats_empty (chain_profile item)]> (files (world σ))
  ∧ dumped (world σ') = dumped (world σ) ++ [prof_path item]
  ∧ prof_names (self σ') = prof_names (self σ) ++ [prof_path item]
  ∧ combined_only (self σ') = false
  ∧ terminal (world σ') = terminal (world σ).
Proof.
  intros Hco Hprof Hret. rewrite (pyfunc_call_per_test σ item Hco).
  unfold chain_returns in Hret. destruct (chain_outcome item); [| discriminate].
  rewrite bool_decide_eq_true_2 by exact Hprof.
  cbn. rewrite Hco. tauto.
Qed.

Lemma pyfunc_call_per_test_raises σ item :
  combined_only (self σ) = false → chain_returns item = false →
  let σ' := (pytest_pyfunc_call item σ).2 in
  (pytest_pyfunc_call item σ).1 = chain_outcome item
  ∧ files (world σ') = files (world σ)
  ∧ dumped (world σ') = dumped (world σ)
  ∧ self σ' = self σ
  ∧ terminal (world σ') = terminal (world σ).
Proof.
  intros Hco Hret. rewrite (pyfunc_call_per_test σ item Hco).
  unfold chain_returns in Hret. destruct (chain_outcome item); [discriminate |].
  cbn. tauto.
Qed.

Lemma pyfunc_call_per_test_refused σ item :
  combined_only (self σ) = false → str "prof" ∉ dirs (world σ) →
  chain_returns item = true →
  let σ' := (pytest_pyfunc_call item σ).2 in
  (pytest_pyfunc_call item σ).1 = Raises (IOError ENOENT)
  ∧ files (world σ') = files (world σ)
  ∧ dumped (world σ') = dumped (world σ)
  ∧ self σ' = self σ
  ∧ terminal (world σ') = terminal (world σ).
Proof.
  intros Hco Hprof Hret. rewrite (pyfunc_call_per_test σ item Hco).
  unfold chain_returns in Hret. destruct (chain_outcome item); [| discriminate].
  rewrite bool_decide_eq_false_2 by exact Hprof.
  cbn. tauto.
Qed.

(** In a missing directory the loop records nothing. *)
Lemma runtestloop_unwritable (items : list (pyfuncitem Stats)) σ :
  combined_only (self σ) = false → str "prof" ∉ dirs (world σ) →
  let σ' := runtestloop items σ in
  self σ' = self σ ∧ files (world σ') = files (world σ)
  ∧ dumped (world σ') = dumped (world σ)
  ∧ terminal (world σ') = terminal (world σ).
Proof.
  revert σ. induction items as [| item items IH]; intros σ Hco Hprof; [cbn; tauto |].
  change (runtestloop (item :: items) σ)
    with (runtestloop items (pytest_pyfunc_call item σ).2).
  assert (Hstep : self (pytest_pyfunc_call item σ).2 = self σ
                  ∧ files (world (pytest_pyfunc_call item σ).2) = files (world σ)
                  ∧ dumped (world (pytest_pyfunc_call item σ).2) = dumped (world σ)
                  ∧ terminal (world (pytest_pyfunc_call item σ).2) = terminal (world σ)).
  { destruct (chain_returns item) eqn:Hret.
    - destruct (pyfunc_call_per_test_refused σ item Hco Hprof Hret) as (_ & ? & ? & ? & ?).
      auto.
    - destruct (pyfunc_call_per_test_raises σ item Hco Hret) as (_ & ? & ? & ? & ?).
      auto. }
  destruct Hstep as (Hs & Hf & Hd & Ht).
  destruct (IH (pytest_pyfunc_call item σ).2) as (Hs' & Hf' & Hd' & Ht').
  { now rewrite Hs. }
  { now rewrite pyfunc_call_dirs. }
  cbn zeta. rewrite Hs', Hf', Hd', Ht'. auto.
Qed.

(** In an existing directory the loop records the tests whose chain
    returned; [P] is any property of the statistics they capture. *)
Lemma runtestloop_per_test (P : Stats → Prop) (items : list (pyfuncitem Stats)) σ :
  combined_only (self σ) = false → str "prof" ∈ dirs (world σ) →
  Forall (fun item => P (captured item)) (List.filter chain_returns items) →
  let σ' := runtestloop items σ in
  let recorded := map prof_path (List.filter chain_returns items) in
  combined_only (self σ') = false
  ∧ prof_names (self σ') = prof_names (self σ) ++ recorded
  ∧ dumped (world σ') = dumped (world σ) ++ recorded
  ∧ (∀ p, (∃ s, files (world σ) !! p = Some s ∧ P s) →
          ∃ s, files (world σ') !! p = Some s ∧ P s)
  ∧ Forall (fun p => ∃ s, files (world σ') !! p = Some s ∧ P s) recorded
  ∧ terminal (world σ') = terminal (world σ).
Proof.
  revert σ. induction items as [| item items IH]; intros σ Hco Hprof HP.
  { cbn. rewrite !app_nil_r. repeat split; auto. }
  change (runtestloop (item :: items) σ)
    with (runtestloop items (pytest_pyfunc_call item σ).2).
  cbn [List.filter] in *. destruct (chain_returns item) eqn:Hret.
  - apply Forall_cons in HP as [HPitem HP].
    destruct (pyfunc_call_per_test_returns σ item Hco Hprof Hret)
      as (_ & Hf & Hd & Hn & Hco' & Ht).
    destruct (IH (pytest_pyfunc_call item σ).2) as (Hco'' & Hn' & Hd' & Hkeep & Hnew & Ht');
      [exact Hco' | now rewrite pyfunc_call_dirs | exact HP |].
    cbn zeta. cbn [map]. rewrite Hn', Hd', Hn, Hd, Ht', Ht, <- !app_assoc.
    repeat split; auto.
    + intros p Hp. apply Hkeep. rewrite Hf, lookup_insert.
      case_decide; [eexists; split; [reflexivity | exact HPitem] | exact Hp].
    + constructor; [| exact Hnew].
      apply Hkeep. rewrite Hf, lookup_insert_eq. eexists; split; [reflexivity | exact HPitem].
  - destruct (pyfunc_call_per_test_raises σ item Hco Hret)
      as (_ & Hf & Hd & Hs & Ht).
    destruct (IH (pytest_pyfunc_call item σ).2) as (Hco'' & Hn' & Hd' & Hkeep & Hnew & Ht');
      [now rewrite Hs | now rewrite pyfunc_call_dirs | exact HP |].
    cbn zeta. rewrite Hn', Hd', Hs, Hd, Ht', Ht.
    repeat split; auto.
    intros p Hp. apply Hkeep. now rewrite Hf.
Qed.

(** The loop keeps every recorded path loadable, as long as each profiled
    test leaves statistics in its profiler. *)
Lemma runtestloop_recorded_ok (items : list (pyfuncitem Stats)) σ :
  Forall (fun item => stats_is_empty (captured item) = false) items →
  recorded_ok σ → recorded_ok (runtestloop items σ).
Proof.
  unfold recorded_ok, loadable. intros Hne Hrec.
  destruct (combined_only (self σ)) eqn:Hco.
  - destruct (runtestloop_shared_frame items σ Hco) as (-> & -> & _). exact Hrec.
  - destruct (decide (str "prof" ∈ dirs (world σ))) as [Hprof | Hprof].
    + destruct (runtestloop_per_test (fun s => stats_is_empty s = false) items σ Hco Hprof)
        as (_ & -> & _ & Hkeep & Hnew & _).
      { apply Forall_forall. intros item Hin. rewrite Forall_forall in Hne.
        apply Hne. apply list_elem_of_In, filter_In in Hin as [Hin _].
        now apply list_elem_of_In. }
      apply Forall_app. split; [| exact Hnew].
      eapply Forall_impl; [exact Hrec |]. exact Hkeep.
    + destruct (runtestloop_unwritable items σ Hco Hprof) as (-> & -> & _). exact Hrec.
Qed.
End TestLoop.

(** ** Session start *)

Section SessionStart.
Context {Stats : Type} `{!Statistics Stats}.
Implicit Types (σ : State Stats).

(** C2, as amended: at session start every [OSError] of the directory
    creation is ignored, the one of an existing [prof] and any other alike,
    and the state is as before; only an exception that is no [OSError]
    propagates out of [pytest_sessionstart]. *)
Theorem sessionstart_ignores_every_OSError σ :
  (∀ errno, (os_makedirs (str "prof") σ).1 = Raises (OSError errno) →
            pytest_sessionstart σ = (Returns tt, σ))
  ∧ (str "prof" ∈ dirs (world σ) → pytest_sessionstart σ = (Returns tt, σ))
  ∧ (∀ e, (pytest_sessionstart σ).1 = Raises e ↔
          (os_makedirs (str "prof") σ).1 = Raises e ∧ is_OSError e = false).
Proof.
  unfold pytest_sessionstart, try_except. rewrite os_makedirs_cases.
  destruct (bool_decide_reflect (str "prof" ∈ dirs (world σ))) as [Hin | Hout].
  - unfold_m. cbn. split; [auto |]. split; [auto |].
    intros e. split; [discriminate |]. intros [[= <-] Hcls]. discriminate Hcls.
  - split; [| split; [intros Hin; contradiction |]].
    + intros errno Hraise. destruct (mkdir_fault (world σ)) as [e' |]; cbn in *.
      * injection Hraise as ->. reflexivity.
      * discriminate Hraise.
    + intros e. destruct (mkdir_fault (world σ)) as [e' |]; cbn.
      * destruct (is_OSError e') eqn:Hcls; unfold_m; cbn.
        -- split; [discriminate |]. intros [[= <-] Hno]. congruence.
        -- split; [intros [= <-]; auto | intros [[= <-] _]; reflexivity].
      * split; [discriminate | intros [Hraise _]; discriminate Hraise].
Qed.
End SessionStart.


Lemma sessionstart_ignores_every_OSError_witness :
  (os_makedirs (str "prof") denied_state).1 = Raises (OSError EACCES)
  ∧ pytest_sessionstart denied_state = (Returns tt, denied_state).
Proof.
  assert (Hraise : (os_makedirs (str "prof") denied_state).1 = Raises (OSError EACCES))
    by (vm_compute; reflexivity).
  split; [exact Hraise |].
  exact (proj1 (sessionstart_ignores_every_OSError denied_state) EACCES Hraise).
Defined.

(** C2, the claim as stated fails: [prof] does not exist, its creation is
    refused with [EACCES], and [pytest_sessionstart] returns normally all the
    same, leaving no directory behind. *)
Lemma sessionstart_swallows_permission_denied :
(str "prof" ∉ dirs (world denied_state))
  ∧ (os_makedirs (str "prof") denied_state).1 = Raises (OSError EACCES)
  ∧ (pytest_sessionstart denied_state).1 = Returns tt
  ∧ str "prof" ∉ dirs (world (pytest_sessionstart denied_state).2).
Proof.
  repeat split; try (vm_compute; reflexivity);
    apply (bool_decide_unpack _); vm_compute; exact I.
Qed.

(** ** Session finish *)

Section SessionFinish.
Context {Stats : Type} `{!Statistics Stats}.
Implicit Types (σ : State Stats).


(** C4: at session finish, without combined-only mode and with at least one
    recorded per-test file, the combined statistics are the first recorded
    file's, with each later recorded file merged in, in recorded order; in
    combined-only mode they are the shared profiler's.  They are what
    [prof/combined.prof] holds once the hook has written it, which it does
    when the recorded files hold statistics and [prof] exists. *)
Theorem sessionfinish_combined_source σ :
  (∀ (first : pystr) (rest : list pystr) (s0 : Stats) (ss : list Stats),
     combined_only (self σ) = false →
     prof_names (self σ) = first :: rest →
     files (world σ) !! first = Some s0 → stats_is_empty s0 = false →
     Forall2 (fun p s => files (world σ) !! p = Some s ∧ stats_is_empty s = false)
       rest ss →
     str "prof" ∈ dirs (world σ) →
     (pytest_sessionfinish σ).1 = Returns tt
     ∧ files (world (pytest_sessionfinish σ).2) !! combined_file =
       Some (fold_left stats_merge ss s0))
  ∧ (∀ (r : nat) (s : Stats),
       combined_only (self σ) = true →
       shared_profiler (self σ) = Some r → heap (world σ) !! r = Some s →
       str "prof" ∈ dirs (world σ) →
       (pytest_sessionfinish σ).1 = Returns tt
       ∧ files (world (pytest_sessionfinish σ).2) !! combined_file = Some s).
Proof.
  split.
  - intros first rest s0 ss Hco Hnames Hfirst Hne Hrest Hprof.
    rewrite (sessionfinish_merged σ first rest s0 ss Hco Hnames Hfirst Hne Hrest).
    rewrite bool_decide_eq_true_2 by exact Hprof.
    cbn [fst snd]. split; [reflexivity |].
    destruct (finished_fields σ (fold_left stats_merge ss s0)) as (-> & _).
    apply lookup_insert_eq.
  - intros r s Hco Hsp Hr Hprof. rewrite (sessionfinish_shared σ r Hco Hsp).
    rewrite bool_decide_eq_true_2 by exact Hprof.
    cbn [fst snd]. split; [reflexivity |].
    destruct (finished_fields σ (default stats_empty (heap (world σ) !! r))) as (-> & _).
    rewrite lookup_insert_eq, Hr. reflexivity.
Qed.
End SessionFinish.

(** ** The per-test hook and the whole session *)

Section Capture.
Context {Stats : Type} `{!Statistics Stats}.
Implicit Types (σ : State Stats) (item : pyfuncitem Stats).

Lemma written_by_nothing {A : Type} (hook : M Stats A) σ :
  dumped (world (hook σ).2) = dumped (world σ) → written_by hook σ = [].
Proof. intros Heq. unfold written_by. rewrite Heq. apply drop_all. Qed.

Lemma written_by_one {A : Type} (hook : M Stats A) σ (p : pystr) :
  dumped (world (hook σ).2) = dumped (world σ) ++ [p] → written_by hook σ = [p].
Proof. intros Heq. unfold written_by. rewrite Heq. apply drop_app_length. Qed.

Lemma init_shared (sv : bool) (w : World Stats) :
  __init__ sv true w =
  (MkProfiling sv true [] None None (Some (length (heap w))),
   set_heap (heap w ++ [stats_empty]) w).
Proof. reflexivity. Qed.

Lemma init_per_test (sv : bool) (w : World Stats) :
  __init__ sv false w = (MkProfiling sv false [] None None None, w).
Proof. reflexivity. Qed.

Lemma has_combined_modes σ :
  has_combined σ ↔
  (combined_only (self σ) = false ∧ prof_names (self σ) ≠ [])
  ∨ (combined_only (self σ) = true ∧ is_Some (shared_profiler (self σ))).
Proof.
  unfold has_combined. destruct (combined_only (self σ)); split.
  - intros Hsp. right. auto.
  - intros [[Hf _] | [_ Hsp]]; [discriminate Hf | exact Hsp].
  - intros Hn. left. auto.
  - intros [[_ Hn] | [Ht _]]; [exact Hn | discriminate Ht].
Qed.

(** C5: in combined-only mode the per-test hook writes no statistics file
    and records no per-test entry, for every test; construction creates
    exactly one shared profiler, no hook creates another, and over a whole
    session the only file written is [prof/combined.prof], at most once. *)
Theorem combined_only_single_accumulator σ item
    (sv : bool) (config : Config) (items : list (pyfuncitem Stats)) (w : World Stats) :
  (combined_only (self σ) = true →
     written_by (pytest_pyfunc_call item) σ = []
     ∧ files (world (pytest_pyfunc_call item σ).2) = files (world σ)
     ∧ prof_names (self (pytest_pyfunc_call item σ).2) = prof_names (self σ)
     ∧ length (heap (world (pytest_pyfunc_call item σ).2)) = length (heap (world σ)))
  ∧ (shared_profiler (__init__ sv true w).1 = Some (length (heap w))
     ∧ heap (__init__ sv true w).2 = heap w ++ [stats_empty])
  ∧ (config profile_combined_only = true →
     ∀ o σ', session config items w = Some (o, σ') →
       length (heap (world σ')) = S (length (heap w))
       ∧ shared_profiler (self σ') = Some (length (heap w))
       ∧ prof_names (self σ') = []
       ∧ (dumped (world σ') = dumped w
          ∨ dumped (world σ') = dumped w ++ [combined_file])
       ∧ (∀ p, is_Some (files (world σ') !! p) →
               is_Some (files w !! p) ∨ p = combined_file)).
Proof.
  split; [| split; [split; reflexivity |]].
  - intros Hco.
    destruct (pyfunc_call_shared_frame σ item Hco) as (Hs & Hf & Hd & Hh & _).
    rewrite Hs. repeat split; auto. now apply written_by_nothing.
  - intros Hcfg o σ' Hrun. unfold session, pytest_configure in Hrun.
    destruct (existsb config [profile; profile_svg]); [| discriminate Hrun].
    rewrite Hcfg, init_shared in Hrun.
    set (σ0 := MkState _ _) in Hrun.
    pose proof (sessionstart_frame σ0) as (Hs1 & Hf1 & Hh1 & Hd1 & _).
    destruct (pytest_sessionstart σ0) as [[[] | e] σ1]; cbn [snd] in *.
    2:{ injection Hrun as <- <-. rewrite Hs1, Hf1, Hh1, Hd1. cbn.
        rewrite length_app. cbn. repeat split; auto; lia. }
    assert (Hco1 : combined_only (self σ1) = true) by now rewrite Hs1.
    pose proof (runtestloop_shared_frame items σ1 Hco1) as (Hs2 & Hf2 & Hd2 & Hh2 & _).
    set (σ2 := runtestloop items σ1) in *.
    rewrite (sessionfinish_shared σ2 (length (heap w))) in Hrun
      by (rewrite Hs2, Hs1; reflexivity).
    destruct (bool_decide (str "prof" ∈ dirs (world σ2))).
    2:{ injection Hrun as <- <-. rewrite Hs2, Hf2, Hh2, Hd2, Hs1, Hf1, Hh1, Hd1. cbn.
        rewrite length_app. cbn. repeat split; auto; lia. }
    set (σ3 := finished σ2 _) in Hrun.
    assert (Hfin : files (world σ3) = <[combined_file := default stats_empty
                      (heap (world σ2) !! length (heap w))]> (files w)
                   ∧ dumped (world σ3) = dumped w ++ [combined_file]
                   ∧ length (heap (world σ3)) = S (length (heap w))
                   ∧ prof_names (self σ3) = []
                   ∧ shared_profiler (self σ3) = Some (length (heap w))).
    { subst σ3. destruct (finished_fields σ2
        (default stats_empty (heap (world σ2) !! length (heap w))))
        as (-> & -> & -> & -> & _).
      rewrite Hf2, Hd2, Hh2, Hs2, Hf1, Hd1, Hh1, Hs1. cbn.
      rewrite length_app. cbn. repeat split; try lia.
      unfold finished. destruct (svg (self σ2)); cbn; now rewrite Hs2, Hs1. }
    destruct Hfin as (Hf3 & Hd3 & Hh3 & Hn3 & Hp3).
    pose proof (terminal_summary_frame σ3) as (Hs4 & Hf4 & Hh4 & Hd4).
    injection Hrun as Hrun.
    assert (σ' = (pytest_terminal_summary σ3).2) as -> by now rewrite Hrun.
    rewrite Hs4, Hf4, Hh4, Hd4, Hf3, Hd3, Hh3, Hn3, Hp3.
    repeat split; auto.
    intros p Hp. rewrite lookup_insert in Hp. case_decide; [now right | now left].
Qed.

(** C6, as amended: [prof/combined.prof] is written at session finish only
    if at least one per-test capture was recorded (without combined-only
    mode) or the shared profiler was constructed (combined-only mode, where
    construction always provides it); it is written in these cases when
    [prof] exists and the recorded files can be loaded.  With no test
    executed and profiling enabled without combined-only mode, the session
    writes no file and the terminal receives nothing. *)
Theorem combined_file_written_iff σ (sv : bool) (config : Config) (w : World Stats) :
  (combined_file ∈ written_by pytest_sessionfinish σ →
     (combined_only (self σ) = false ∧ prof_names (self σ) ≠ [])
     ∨ (combined_only (self σ) = true ∧ is_Some (shared_profiler (self σ))))
  ∧ (str "prof" ∈ dirs (world σ) → recorded_ok σ →
     (combined_only (self σ) = false ∧ prof_names (self σ) ≠ [])
     ∨ (combined_only (self σ) = true ∧ is_Some (shared_profiler (self σ))) →
     written_by pytest_sessionfinish σ = [combined_file])
  ∧ is_Some (shared_profiler (__init__ sv true w).1)
  ∧ (config profile_combined_only = false →
     config profile = true ∨ config profile_svg = true →
     ∃ o σ', session config [] w = Some (o, σ')
       ∧ dumped (world σ') = dumped w
       ∧ files (world σ') = files w
       ∧ combined_name (self σ') = None
       ∧ terminal (world σ') = terminal w).
Proof.
  split; [| split; [| split]].
  - intros Hin. apply has_combined_modes.
    destruct (sessionfinish_state σ) as [(s & Hsrc & _) | Hsame]; [exact Hsrc |].
    rewrite (written_by_nothing pytest_sessionfinish σ) in Hin by now rewrite Hsame.
    inversion Hin.
  - intros Hprof Hrec Hsrc. apply has_combined_modes in Hsrc.
    destruct (sessionfinish_writable σ Hrec Hsrc Hprof) as [s Hfin].
    apply written_by_one. rewrite Hfin. cbn [snd].
    now destruct (finished_fields σ s) as (_ & -> & _).
  - rewrite init_shared. cbn. eauto.
  - intros Hcfg Hen. unfold session, pytest_configure.
    assert (existsb config [profile; profile_svg] = true) as ->.
    { cbn. destruct Hen as [-> | ->]; [reflexivity | apply orb_true_iff; right; reflexivity]. }
    rewrite Hcfg, init_per_test.
    set (σ0 := MkState _ _).
    pose proof (sessionstart_frame σ0) as (Hs1 & Hf1 & Hh1 & Hd1 & Ht1).
    destruct (pytest_sessionstart σ0) as [[[] | e] σ1]; cbn [snd] in *.
    2:{ eexists _, _. split; [reflexivity |]. now rewrite Hs1, Hf1, Hd1, Ht1. }
    cbn [runtestloop fold_left].
    rewrite (sessionfinish_nothing σ1) by (rewrite Hs1; reflexivity).
    rewrite (terminal_summary_silent σ1) by (rewrite Hs1; reflexivity).
    eexists _, _. split; [reflexivity |]. now rewrite Hs1, Hf1, Hd1, Ht1.
Qed.

End Capture.

(** ** Configuration *)

Section Registration.
Context {Stats : Type} `{!Statistics Stats}.

(** C9: the plugin is registered if and only if the profile option or the
    profile-svg option is set; [--profile-svg] alone registers it, with SVG
    rendering on, and [--profile-combined-only] alone registers nothing. *)
Theorem plugin_registered_iff (config : Config) (w : World Stats) (c : bool) :
  (is_Some (pytest_configure config w).1 ↔
     config profile = true ∨ config profile_svg = true)
  ∧ (∃ plugin, (pytest_configure (config_of false c true) w).1 = Some plugin
               ∧ svg plugin = true ∧ combined_only plugin = c)
  ∧ pytest_configure (config_of false true false) w = (None, w).
Proof.
  split; [| split].
  - unfold pytest_configure. cbn [existsb]. rewrite orb_false_r.
    destruct (config profile), (config profile_svg); cbn [orb].
    1-3: destruct (__init__ _ _ w) as [plugin w']; cbn;
         split; [auto | eauto].
    cbn. split; [intros [? [=]] | intros [[=] | [=]]].
  - unfold pytest_configure. cbn [existsb config_of orb].
    destruct c; [rewrite init_shared | rewrite init_per_test]; cbn; eauto.
  - reflexivity.
Qed.
End Registration.


(** ** The theorems at concrete sessions *)

Ltac decide_by_computation := apply (bool_decide_unpack _); vm_compute; exact I.



Lemma sessionfinish_combined_source_witness :
  combined_only (self two_tests_state) = false
  ∧ prof_names (self two_tests_state) = [prof_path test_a; prof_path test_b]
  ∧ str "prof" ∈ dirs (world two_tests_state)
  ∧ files (world (pytest_sessionfinish two_tests_state).2) !! combined_file =
    Some (fold_left stats_merge [chain_profile test_b] (chain_profile test_a)).
Proof.
  assert (Hco : combined_only (self two_tests_state) = false) by reflexivity.
  assert (Hnames : prof_names (self two_tests_state) = [prof_path test_a; prof_path test_b])
    by (vm_compute; reflexivity).
  assert (Hfirst : files (world two_tests_state) !! prof_path test_a =
                   Some (chain_profile test_a)) by (vm_compute; reflexivity).
  assert (Hne : stats_is_empty (chain_profile test_a) = false) by (vm_compute; reflexivity).
  assert (Hrest : Forall2 (fun p s => files (world two_tests_state) !! p = Some s
                                      ∧ stats_is_empty s = false)
                    [prof_path test_b] [chain_profile test_b]).
  { constructor; [split; vm_compute; reflexivity | constructor]. }
  assert (Hprof : str "prof" ∈ dirs (world two_tests_state)) by decide_by_computation.
  split; [exact Hco |]. split; [exact Hnames |]. split; [exact Hprof |].
  exact (proj2 (proj1 (sessionfinish_combined_source two_tests_state)
                  _ _ _ _ Hco Hnames Hfirst Hne Hrest Hprof)).
Defined.

Lemma combined_only_single_accumulator_witness :
  combined_only (self no_gprof2dot_state) = true
  ∧ written_by (pytest_pyfunc_call test_a) no_gprof2dot_state = []
  ∧ ∃ o σ', session (config_of false true true) [test_a; test_failing; test_b]
              fresh_world = Some (o, σ')
            ∧ length (heap (world σ')) = 1%nat
            ∧ prof_names (self σ') = [].
Proof.
  assert (Hco : combined_only (self no_gprof2dot_state) = true) by reflexivity.
  pose proof (combined_only_single_accumulator no_gprof2dot_state test_a true
                (config_of false true true) [test_a; test_failing; test_b] fresh_world)
    as (Hhook & _ & Hsession).
  split; [exact Hco |]. split; [exact (proj1 (Hhook Hco)) |].
  destruct (session (config_of false true true) [test_a; test_failing; test_b] fresh_world)
    as [[o σ'] |] eqn:Hrun; [| discriminate Hrun].
  exists o, σ'. split; [reflexivity |].
  destruct (Hsession eq_refl o σ' eq_refl) as (Hheap & _ & Hnames & _).
  split; [exact Hheap | exact Hnames].
Defined.

Lemma combined_file_written_iff_witness :
  str "prof" ∈ dirs (world two_tests_state)
  ∧ recorded_ok two_tests_state
  ∧ written_by pytest_sessionfinish two_tests_state = [combined_file]
  ∧ ∃ o σ', session (config_of true false false) [] fresh_world = Some (o, σ')
            ∧ dumped (world σ') = [] ∧ terminal (world σ') = [].
Proof.
  assert (Hprof : str "prof" ∈ dirs (world two_tests_state)) by decide_by_computation.
  assert (Hrec : recorded_ok two_tests_state).
  { apply runtestloop_recorded_ok.
    - repeat constructor.
    - vm_compute. constructor. }
  pose proof (combined_file_written_iff two_tests_state false
                (config_of true false false) fresh_world) as (_ & Hif & _ & Hzero).
  split; [exact Hprof |]. split; [exact Hrec |]. split.
  - apply (Hif Hprof Hrec). left. split; [reflexivity | vm_compute; discriminate].
  - destruct (Hzero eq_refl (or_introl eq_refl)) as (o & σ' & Hrun & Hd & _ & _ & Ht).
    exists o, σ'. split; [exact Hrun |]. split; [exact Hd | exact Ht].
Defined.

(** C6, the claim as stated fails: in combined-only mode the shared
    profiler was constructed and has profiled a test, but session start
    swallowed the refusal to create [prof]; session finish raises the
    [IOError] of the write and [prof/combined.prof] is not written. *)
Lemma combined_file_not_written_without_prof :
  combined_only (self unwritable_shared_state) = true
  ∧ is_Some (shared_profiler (self unwritable_shared_state))
  ∧ (pytest_sessionfinish unwritable_shared_state).1 = Raises (IOError ENOENT)
  ∧ written_by pytest_sessionfinish unwritable_shared_state = []
  ∧ files (world (pytest_sessionfinish unwritable_shared_state).2) !! combined_file = None.
Proof.
  repeat split; try (vm_compute; reflexivity). vm_compute. eauto.
Qed.



Lemma plugin_registered_iff_witness :
  config_of false false true profile_svg = true
  ∧ is_Some (pytest_configure (config_of false false true) fresh_world).1.
Proof.
  split; [reflexivity |].
  apply (proj1 (plugin_registered_iff (config_of false false true) fresh_world false)).
  right. reflexivity.
Defined.

(** * Further properties of the code *)

(** ** More on the sanitizer *)

Section SanitizerMore.
Local Open Scope N_scope.

Lemma sanitized_char_safe (c : N) :
  (spec_sanitize_char c ∉ forbidden_chars) ∧ (spec_sanitize_char c < 127).
Proof.
  pose proof (clean_char_spec (spec_sanitize_char c)) as Hfix.
  rewrite sanitized_char_kept in Hfix. unfold clean_char in Hfix.
  destruct (bool_decide_reflect (spec_sanitize_char c ∈ forbidden_chars)) as [Hin | Hout];
    cbn [negb andb] in Hfix.
  - exfalso. apply forbidden_chars_spec in Hin.
    assert (Hu : spec_sanitize_char c = 95) by (injection Hfix as <-; reflexivity).
    rewrite Hu in Hin. lia.
  - split; [exact Hout |].
    destruct (N.ltb_spec (spec_sanitize_char c) 127) as [Hlt | Hge]; [exact Hlt |].
    assert (Hu : spec_sanitize_char c = 95) by (injection Hfix as <-; reflexivity).
    lia.
Qed.

(** X1: whatever the input, every character of a sanitized name is outside
    the forbidden set and below code point 127: the result is a safe name. *)
Theorem clean_filename_safe (s : pystr) : safe_name (clean_filename s).
Proof.
  unfold safe_name. rewrite clean_filename_map.
  induction s as [| c s IH]; cbn [map]; constructor.
  - apply sanitized_char_safe.
  - exact IH.
Qed.

(** X2: sanitizing is done character by character, so it commutes with
    concatenation, and the empty name stays empty. *)
Theorem clean_filename_app (a b : pystr) :
  clean_filename (a ++ b) = clean_filename a ++ clean_filename b
  ∧ clean_filename [] = [].
Proof.
  split; [| reflexivity].
  unfold clean_filename, join_empty. rewrite map_app. apply concat_app.
Qed.

Lemma sanitize_char_collides (c d : N) :
  spec_sanitize_char c = spec_sanitize_char d ↔ same_after_cleaning c d.
Proof.
  unfold same_after_cleaning, to_underscore, spec_sanitize_char.
  destruct (spec_removed c) eqn:Hc, (spec_removed d) eqn:Hd; split.
  - intros _. right. split; left; reflexivity.
  - reflexivity.
  - intros <-. right. split; [left | right]; reflexivity.
  - intros [-> | [_ [Hd' | ->]]]; [congruence | discriminate Hd' | reflexivity].
  - intros ->. right. split; [right | left]; reflexivity.
  - intros [-> | [[Hc' | ->] _]]; [congruence | discriminate Hc' | reflexivity].
  - intros ->. left. reflexivity.
  - intros [-> | [[Hc' | ->] [Hd' | ->]]]; congruence.
Qed.

(** X3: two names get the same sanitized name exactly when they have the
    same length and, position by position, the same character or two
    characters that both end as an underscore. *)
Theorem clean_filename_collides_iff (s t : pystr) :
  clean_filename s = clean_filename t ↔ Forall2 same_after_cleaning s t.
Proof.
  rewrite !clean_filename_map. revert t.
  induction s as [| c s IH]; intros [| d t]; cbn [map]; split; intros H.
  - constructor.
  - reflexivity.
  - discriminate H.
  - inversion H.
  - discriminate H.
  - inversion H.
  - injection H as Hcd Hst. constructor.
    + now apply sanitize_char_collides.
    + now apply IH.
  - inversion H as [| ? ? ? ? Hcd Hst]; subst.
    apply sanitize_char_collides in Hcd. apply IH in Hst. congruence.
Qed.
End SanitizerMore.

Lemma clean_filename_collides_iff_witness :
  str "t/x" ≠ str "t:x" ∧ clean_filename (str "t/x") = clean_filename (str "t:x").
Proof.
  split; [discriminate |].
  apply (proj2 (clean_filename_collides_iff (str "t/x") (str "t:x"))).
  constructor; [left; reflexivity |].
  constructor; [right; split; left; reflexivity |].
  constructor; [left; reflexivity | constructor].
Defined.

(** ** More on the hooks *)

Section HooksMore.
Context {Stats : Type} `{!Statistics Stats}.
Implicit Types (σ : State Stats) (item : pyfuncitem Stats).

(** X4: the statistics file of a test lies directly inside [prof]: its
    path is [prof/] followed by a part without any slash; and two tests get
    the same path exactly when their sanitized names are equal. *)
Theorem prof_path_inside_prof item (other : pyfuncitem Stats) :
  take 5 (prof_path item) = str "prof/"
  ∧ (chr "/" ∉ drop 5 (prof_path item))
  ∧ (prof_path item = prof_path other ↔
     clean_filename (name item) = clean_filename (name other)).
Proof.
  rewrite !prof_path_eq. split; [reflexivity |]. split.
  - change (drop 5 (str "prof/" ++ ?x)) with x.
    intros Hin. apply elem_of_app in Hin as [Hin | Hin].
    + exact (clean_filename_no_slash _ Hin).
    + vm_compute in Hin. repeat (apply elem_of_cons in Hin as [Hin | Hin]; [discriminate Hin |]).
      inversion Hin.
  - split.
    + intros Heq. apply app_inv_head in Heq. now apply app_inv_tail in Heq.
    + intros ->. reflexivity.
Qed.

(** *** Session start *)

(** X8: session start is idempotent on the state, whatever happens to the
    directory creation; and when nothing stands in the way of the creation
    it returns with [prof] among the directories and every earlier
    directory kept. *)
Theorem sessionstart_idempotent σ :
  (pytest_sessionstart (pytest_sessionstart σ).2).2 = (pytest_sessionstart σ).2
  ∧ (mkdir_fault (world σ) = None →
     (pytest_sessionstart σ).1 = Returns tt
     ∧ str "prof" ∈ dirs (world (pytest_sessionstart σ).2)
     ∧ dirs (world σ) ⊆ dirs (world (pytest_sessionstart σ).2)).
Proof.
  unfold pytest_sessionstart, try_except. rewrite !os_makedirs_cases.
  destruct (bool_decide_reflect (str "prof" ∈ dirs (world σ))) as [Hin | Hout].
  - unfold_m. cbn. rewrite bool_decide_eq_true_2 by exact Hin. cbn.
    split; [reflexivity |]. intros _. repeat split; [exact Hin | set_solver].
  - destruct (mkdir_fault (world σ)) as [e |] eqn:Hfault.
    + split; [| discriminate].
      destruct (is_OSError e) eqn:Hcls; unfold_m; cbn;
        rewrite bool_decide_eq_false_2 by exact Hout; rewrite Hfault, ?Hcls; reflexivity.
    + cbn. rewrite bool_decide_eq_true_2 by set_solver. cbn. unfold_m. cbn.
      split; [reflexivity |]. intros _. repeat split; set_solver.
Qed.

(** *** Session finish *)

Lemma add_each_missing (good : list pystr) (bad : pystr) (rest : list pystr)
    (c : Stats) σ :
  Forall (loadable (world σ)) good → files (world σ) !! bad = None →
  add_each c (good ++ bad :: rest) σ = (Raises (IOError ENOENT), σ).
Proof.
  intros Hgood Hbad. revert c.
  induction Hgood as [| p good (s & Hs & He) _ IH]; intros c;
    cbn [app add_each]; unfold pstats_add; rewrite !bind_run.
  - rewrite (pstats_Stats_missing bad σ Hbad). reflexivity.
  - rewrite (pstats_Stats_found p s σ Hs He). apply IH.
Qed.

(** X5: without combined-only mode, when a recorded statistics file is no
    longer there and the files recorded before it can be loaded, session
    finish raises the [IOError] of the missing file and leaves everything
    as it was: no combined file is written, no name is set, no pipeline is
    run. *)
Theorem sessionfinish_missing_record σ (good : list pystr) (bad : pystr)
    (rest : list pystr) :
  combined_only (self σ) = false →
  prof_names (self σ) = good ++ bad :: rest →
  Forall (loadable (world σ)) good →
  files (world σ) !! bad = None →
  pytest_sessionfinish σ = (Raises (IOError ENOENT), σ).
Proof.
  intros Hco Hnames Hgood Hbad. unfold pytest_sessionfinish.
  rewrite bind_run. cbn [get_self]. rewrite Hco, Hnames.
  destruct Hgood as [| first good (s0 & Hfirst & Hne) Hgood]; cbn [app];
    rewrite !bind_run.
  - rewrite (pstats_Stats_missing bad σ Hbad). reflexivity.
  - rewrite (pstats_Stats_found first s0 σ Hfirst Hne), bind_run.
    rewrite (add_each_missing good bad rest s0 σ Hgood Hbad). reflexivity.
Qed.

(** X12: with loadable records, session finish runs the rendering pipeline,
    once, when SVG rendering was requested, combined statistics have a
    source and [prof] exists; when any of the three fails it runs no shell
    command and leaves [svg_name] as it was. *)
Theorem pipeline_only_with_combined σ :
  recorded_ok σ →
  (svg (self σ) = true → has_combined σ → str "prof" ∈ dirs (world σ) →
   shell (world (pytest_sessionfinish σ).2) =
     shell (world σ) ++ [ShellCall svg_template (Some combined_file) (Some svg_file)]
   ∧ svg_name (self (pytest_sessionfinish σ).2) = Some svg_file)
  ∧ (svg (self σ) = false ∨ ¬ has_combined σ ∨ (str "prof" ∉ dirs (world σ)) →
     shell (world (pytest_sessionfinish σ).2) = shell (world σ)
     ∧ svg_name (self (pytest_sessionfinish σ).2) = svg_name (self σ)).
Proof.
  intros Hrec. split.
  - intros Hsvg Hsrc Hprof.
    destruct (sessionfinish_writable σ Hrec Hsrc Hprof) as [s ->]. cbn [snd].
    destruct (finished_fields σ s) as (_ & _ & _ & _ & _ & -> & ->).
    now rewrite Hsvg.
  - intros Hnot. destruct (has_combined_dec σ) as [Hsrc | Hno].
    + destruct (sessionfinish_with_source σ Hrec Hsrc) as [s ->].
      destruct (bool_decide_reflect (str "prof" ∈ dirs (world σ))) as [Hprof | Hprof];
        [| auto].
      destruct Hnot as [Hsvg | [Hno | Hno]]; [| contradiction | contradiction].
      cbn [snd]. destruct (finished_fields σ s) as (_ & _ & _ & _ & _ & -> & ->).
      now rewrite Hsvg.
    + rewrite (sessionfinish_without_source σ Hno). auto.
Qed.

(** X16: where [prof] does not exist, as after a session start that
    swallowed the refusal to create it, every write fails.  In per-test
    mode the hook of a test whose chain returned raises the [IOError] of
    [dump_stats] and the test is not recorded; session finish, when it has
    a source of combined statistics, raises the same and leaves everything
    as it was. *)
Theorem writes_fail_without_prof σ item :
  str "prof" ∉ dirs (world σ) →
  (combined_only (self σ) = false → chain_returns item = true →
     (pytest_pyfunc_call item σ).1 = Raises (IOError ENOENT)
     ∧ files (world (pytest_pyfunc_call item σ).2) = files (world σ)
     ∧ dumped (world (pytest_pyfunc_call item σ).2) = dumped (world σ)
     ∧ prof_names (self (pytest_pyfunc_call item σ).2) = prof_names (self σ))
  ∧ (recorded_ok σ → has_combined σ →
     pytest_sessionfinish σ = (Raises (IOError ENOENT), σ)).
Proof.
  intros Hprof. split.
  - intros Hco Hret.
    destruct (pyfunc_call_per_test_refused σ item Hco Hprof Hret) as (Ho & Hf & Hd & Hs & _).
    rewrite Hs. auto.
  - intros Hrec Hsrc. now apply sessionfinish_unwritable.
Qed.

(** *** The terminal summary *)

Lemma summary_prints σ (p : pystr) (s : Stats) :
  combined_name (self σ) = Some p → p ≠ [] →
  files (world σ) !! p = Some s → stats_is_empty s = false →
  (pytest_terminal_summary σ).1 = Returns tt
  ∧ terminal (world (pytest_terminal_summary σ).2) =
    terminal (world σ)
    ++ [Written (profiling_header p); PrintedStats s (str "cumulative") 20]
    ++ (if truthy_str (svg_name (self σ))
        then [Written (svg_line (default [] (svg_name (self σ))))] else []).
Proof.
  intros Hname Hne Hfile Hstats.
  unfold pytest_terminal_summary, print_stats, pstats_Stats, terminalreporter_write,
    profiling_header, svg_line.
  unfold_m. cbn. rewrite Hname. destruct p as [| c p]; [done |]. cbn.
  rewrite Hfile. cbn. rewrite Hstats. cbn.
  destruct (truthy_str (svg_name (self σ))); cbn; rewrite <- ?app_assoc; auto.
Qed.

Lemma summary_empty_file σ (p : pystr) (s : Stats) :
  combined_name (self σ) = Some p → p ≠ [] →
  files (world σ) !! p = Some s → stats_is_empty s = true →
  pytest_terminal_summary σ =
  (Raises (PyException "TypeError"),
   MkState (self σ) (emit (Written (profiling_header p)) (world σ))).
Proof.
  intros Hname Hne Hfile Hstats.
  unfold pytest_terminal_summary, print_stats, pstats_Stats, terminalreporter_write,
    profiling_header.
  unfold_m. cbn. rewrite Hname. destruct p as [| c p]; [done |]. cbn.
  rewrite Hfile. cbn. rewrite Hstats. reflexivity.
Qed.

(** X7: when the plugin holds the name of a combined file that is not on
    disk, the summary writes its header, then raises the [IOError] of the
    missing file; the SVG line is not written, whether an SVG name is set
    or not. *)
Theorem summary_missing_file σ (p : pystr) :
  combined_name (self σ) = Some p → p ≠ [] → files (world σ) !! p = None →
  pytest_terminal_summary σ =
  (Raises (IOError ENOENT),
   MkState (self σ) (emit (Written (profiling_header p)) (world σ))).
Proof.
  intros Hname Hne Hfile.
  unfold pytest_terminal_summary, print_stats, pstats_Stats, terminalreporter_write,
    profiling_header.
  unfold_m. cbn. rewrite Hname. destruct p as [| c p]; [done |]. cbn.
  rewrite Hfile. reflexivity.
Qed.
End HooksMore.

(** ** More on the test loop and the whole session *)

Section LoopMore.
Context {Stats : Type} `{!Statistics Stats}.
Implicit Types (σ : State Stats) (item : pyfuncitem Stats).

Lemma runtestloop_shared_heap (items : list (pyfuncitem Stats)) σ (r : nat) (s : Stats) :
  combined_only (self σ) = true → shared_profiler (self σ) = Some r →
  heap (world σ) !! r = Some s →
  self (runtestloop items σ) = self σ
  ∧ heap (world (runtestloop items σ)) !! r =
    Some (fold_left stats_merge (map chain_profile items) s).
Proof.
  revert σ s. induction items as [| item items IH]; intros σ s Hco Hsp Hr; [auto |].
  change (runtestloop (item :: items) σ)
    with (runtestloop items (pytest_pyfunc_call item σ).2).
  rewrite (pyfunc_call_shared σ item r Hco Hsp). cbn [snd map fold_left].
  set (σ1 := MkState _ _).
  destruct (IH σ1 (stats_merge s (chain_profile item))) as [Hself Hheap]; try assumption.
  - subst σ1. cbn. now rewrite list_lookup_alter_eq, Hr.
  - split; [exact Hself | exact Hheap].
Qed.

(** X9: in combined-only mode the shared profiler gathers the statistics of
    every executed test in execution order, those of a test whose chain
    raised included, and session finish, where [prof] exists, writes
    exactly that to [prof/combined.prof]. *)
Theorem combined_only_accumulates (items : list (pyfuncitem Stats)) σ (r : nat) (s : Stats) :
  combined_only (self σ) = true → shared_profiler (self σ) = Some r →
  heap (world σ) !! r = Some s → str "prof" ∈ dirs (world σ) →
  (pytest_sessionfinish (runtestloop items σ)).1 = Returns tt
  ∧ files (world (pytest_sessionfinish (runtestloop items σ)).2) !! combined_file =
    Some (fold_left stats_merge (map chain_profile items) s).
Proof.
  intros Hco Hsp Hr Hprof.
  destruct (runtestloop_shared_heap items σ r s Hco Hsp Hr) as [Hself Hheap].
  rewrite (sessionfinish_shared (runtestloop items σ) r) by (rewrite Hself; assumption).
  rewrite bool_decide_eq_true_2 by now rewrite runtestloop_dirs.
  cbn [fst snd]. split; [reflexivity |].
  destruct (finished_fields (runtestloop items σ)
              (default stats_empty (heap (world (runtestloop items σ)) !! r))) as (-> & _).
  rewrite lookup_insert_eq, Hheap. reflexivity.
Qed.

Lemma pyfunc_call_per_test_heap σ item :
  combined_only (self σ) = false →
  heap (world (pytest_pyfunc_call item σ).2) = heap (world σ) ++ [captured item]
  ∧ combined_only (self (pytest_pyfunc_call item σ).2) = false.
Proof.
  intros Hco. rewrite (pyfunc_call_per_test σ item Hco).
  destruct (chain_outcome item); [destruct (bool_decide _) |];
    cbn; rewrite ?Hco; auto.
Qed.

(** X13: in per-test mode every executed test, returning or raising, gets a
    profiler of its own that holds the statistics of that test alone; the
    profilers that were there before are left as they were. *)
Theorem per_test_fresh_profilers (items : list (pyfuncitem Stats)) σ :
  combined_only (self σ) = false →
  heap (world (runtestloop items σ)) = heap (world σ) ++ map captured items.
Proof.
  revert σ. induction items as [| item items IH]; intros σ Hco.
  { cbn. now rewrite app_nil_r. }
  change (runtestloop (item :: items) σ)
    with (runtestloop items (pytest_pyfunc_call item σ).2).
  destruct (pyfunc_call_per_test_heap σ item Hco) as [Hheap Hco'].
  rewrite (IH _ Hco'), Hheap, <- app_assoc. reflexivity.
Qed.






Lemma pyfunc_call_names σ item :
  svg_name (self (pytest_pyfunc_call item σ).2) = svg_name (self σ)
  ∧ combined_name (self (pytest_pyfunc_call item σ).2) = combined_name (self σ).
Proof.
  destruct (combined_only (self σ)) eqn:Hco.
  - destruct (pyfunc_call_shared_frame σ item Hco) as (-> & _). auto.
  - rewrite (pyfunc_call_per_test σ item Hco).
    destruct (chain_outcome item); [destruct (bool_decide _) |]; auto.
Qed.

Lemma runtestloop_names (items : list (pyfuncitem Stats)) σ :
  svg_name (self (runtestloop items σ)) = svg_name (self σ)
  ∧ combined_name (self (runtestloop items σ)) = combined_name (self σ).
Proof.
  revert σ. induction items as [| item items IH]; intros σ; [auto |].
  change (runtestloop (item :: items) σ)
    with (runtestloop items (pytest_pyfunc_call item σ).2).
  destruct (IH (pytest_pyfunc_call item σ).2) as [-> ->]. apply pyfunc_call_names.
Qed.

End LoopMore.

(** ** Sessions over statistics that behave like dictionaries *)

Lemma union_with_empty_iff (a b : gmap pystr nat) :
  bool_decide (union_with (fun x y => Some (x + y)%nat) a b = ∅) =
  bool_decide (a = ∅) && bool_decide (b = ∅).
Proof.
  rewrite <- bool_decide_and. apply bool_decide_ext. split.
  - intros Hall. split; apply map_empty; intros i;
      apply (f_equal (fun m => m !! i)) in Hall;
      rewrite lookup_union_with, lookup_empty in Hall;
      destruct (a !! i), (b !! i); (discriminate Hall || reflexivity).
  - intros [-> ->]. apply map_eq. intros i.
    rewrite lookup_union_with, !lookup_empty. reflexivity.
Qed.

#[export] Instance call_counts_laws : StatisticsLaws call_counts.
Proof. split; [reflexivity | exact union_with_empty_iff]. Qed.

Section WithLaws.
Context {Stats : Type} `{!Statistics Stats} `{!StatisticsLaws Stats}.
Implicit Types (σ : State Stats) (item : pyfuncitem Stats).

Lemma fold_merge_is_empty (l : list Stats) (s : Stats) :
  stats_is_empty (fold_left stats_merge l s) =
  stats_is_empty s && forallb stats_is_empty l.
Proof.
  revert s. induction l as [| x l IH]; intros s; cbn [fold_left forallb].
  - now rewrite andb_true_r.
  - now rewrite IH, stats_merge_is_empty, andb_assoc.
Qed.

Lemma captured_is_empty item :
  stats_is_empty (captured item) = stats_is_empty (chain_profile item).
Proof. unfold captured. now rewrite stats_merge_is_empty, stats_empty_is_empty. Qed.

Lemma sessionfinish_statistics σ :
  recorded_ok σ → has_combined σ → str "prof" ∈ dirs (world σ) →
  (combined_only (self σ) = true → shared_has_statistics σ) →
  ∃ s, pytest_sessionfinish σ = (Returns tt, finished σ s) ∧ stats_is_empty s = false.
Proof.
  unfold recorded_ok, has_combined. intros Hrec Hsrc Hprof Hshared.
  destruct (combined_only (self σ)) eqn:Hco.
  - destruct Hsrc as [r Hr]. destruct (Hshared eq_refl r Hr) as (s & Hs & Hne).
    exists s. rewrite (sessionfinish_shared σ r Hco Hr), Hs.
    now rewrite bool_decide_eq_true_2.
  - destruct (prof_names (self σ)) as [| first rest] eqn:Hnames; [done |].
    apply Forall_cons in Hrec as [(s0 & Hfirst & Hne) Hrest].
    apply recorded_contents in Hrest as [ss Hss].
    exists (fold_left stats_merge ss s0).
    rewrite (sessionfinish_merged σ first rest s0 ss Hco Hnames Hfirst Hne Hss).
    rewrite bool_decide_eq_true_2 by exact Hprof. split; [reflexivity |].
    now rewrite fold_merge_is_empty, Hne.
Qed.

Lemma summary_after_finished σ (s : Stats) :
  svg_name (self σ) = None → stats_is_empty s = false →
  (pytest_terminal_summary (finished σ s)).1 = Returns tt
  ∧ terminal (world (pytest_terminal_summary (finished σ s)).2) =
    terminal (world σ)
    ++ [Written (profiling_header combined_file); PrintedStats s (str "cumulative") 20]
    ++ (if svg (self σ) then [Written (svg_line svg_file)] else []).
Proof.
  intros Hsvg Hne.
  assert (Hfile : files (world (finished σ s)) !! combined_file = Some s).
  { destruct (finished_fields σ s) as (-> & _). apply lookup_insert_eq. }
  assert (Hname : combined_name (self (finished σ s)) = Some combined_file).
  { destruct (finished_fields σ s) as (_ & _ & _ & _ & -> & _). reflexivity. }
  destruct (summary_prints (finished σ s) combined_file s Hname) as [Hret Hterm];
    [discriminate | exact Hfile | exact Hne |].
  split; [exact Hret |]. rewrite Hterm.
  unfold finished. destruct (svg (self σ)); cbn; [reflexivity |].
  rewrite Hsvg. reflexivity.
Qed.

(** X6: the summary reports what session finish wrote.  From a plugin that
    has not finished before, with [prof] existing, loadable records and,
    in combined-only mode, a shared profiler that has profiled something,
    a session finish with a source of combined statistics is followed by a
    summary that returns: the terminal receives the header naming
    [prof/combined.prof], then the statistics stored in that file sorted
    by cumulative time and cut to 20 entries, then the SVG line exactly
    when SVG rendering was requested. *)
Theorem summary_reports_combined σ :
  recorded_ok σ → has_combined σ → svg_name (self σ) = None →
  str "prof" ∈ dirs (world σ) →
  (combined_only (self σ) = true → shared_has_statistics σ) →
  ∃ s, files (world (pytest_sessionfinish σ).2) !! combined_file = Some s
    ∧ (pytest_terminal_summary (pytest_sessionfinish σ).2).1 = Returns tt
    ∧ terminal (world (pytest_terminal_summary (pytest_sessionfinish σ).2).2) =
      terminal (world σ)
      ++ [Written (profiling_header combined_file); PrintedStats s (str "cumulative") 20]
      ++ (if svg (self σ) then [Written (svg_line svg_file)] else []).
Proof.
  intros Hrec Hsrc Hsvg Hprof Hshared.
  destruct (sessionfinish_statistics σ Hrec Hsrc Hprof Hshared) as (s & -> & Hne).
  cbn [snd]. exists s.
  destruct (summary_after_finished σ s Hsvg Hne) as [Hret Hterm].
  split; [| split; assumption].
  destruct (finished_fields σ s) as (-> & _). apply lookup_insert_eq.
Qed.

Lemma configured (config : Config) (w : World Stats) (plugin : Profiling)
    (w0 : World Stats) :
  pytest_configure config w = (Some plugin, w0) →
  combined_only plugin = config profile_combined_only
  ∧ prof_names plugin = [] ∧ svg_name plugin = None ∧ combined_name plugin = None
  ∧ dirs w0 = dirs w ∧ mkdir_fault w0 = mkdir_fault w
  ∧ files w0 = files w ∧ terminal w0 = terminal w
  ∧ (config profile_combined_only = true →
     shared_profiler plugin = Some (length (heap w))
     ∧ heap w0 !! length (heap w) = Some stats_empty).
Proof.
  unfold pytest_configure.
  destruct (existsb config [profile; profile_svg]); [| discriminate].
  destruct (config profile_combined_only);
    [rewrite init_shared | rewrite init_per_test];
    intros [= <- <-]; cbn; repeat split; try discriminate.
  apply lookup_last.
Qed.

(** X14: a session in which [prof] exists or can be created, every
    executed test leaves statistics in its profiler and, in combined-only
    mode, at least one test is executed, ends normally, whatever the tests'
    outcomes: session start returns, and session finish and the terminal
    summary find and can load every file they read, all of them written by
    the plugin. *)
Theorem session_ends_normally (config : Config)
    (items : list (pyfuncitem Stats)) (w : World Stats)
    (o : outcome unit) (σ' : State Stats) :
  session config items w = Some (o, σ') →
  str "prof" ∈ dirs w ∨ mkdir_fault w = None →
  Forall (fun item => stats_is_empty (chain_profile item) = false) items →
  (config profile_combined_only = true → items ≠ []) →
  o = Returns tt.
Proof.
  unfold session. intros Hrun Hdir Hitems Hsome.
  destruct (pytest_configure config w) as [[plugin |] w0] eqn:Hconf; [| discriminate Hrun].
  destruct (configured config w plugin w0 Hconf)
    as (Hco0 & Hn0 & Hs0 & Hc0 & Hd0 & Hm0 & _ & _ & Hshared0).
  set (σ0 := MkState plugin w0) in *.
  destruct (sessionstart_creates σ0) as [Hret1 Hprof1].
  { cbn. now rewrite Hd0, Hm0. }
  pose proof (sessionstart_frame σ0) as (Hs1 & _ & Hh1 & _).
  destruct (pytest_sessionstart σ0) as [[[] | e] σ1]; [| discriminate Hret1].
  cbn [fst snd] in *.
  set (σ2 := runtestloop items σ1) in *.
  assert (Hprof2 : str "prof" ∈ dirs (world σ2))
    by (subst σ2; now rewrite runtestloop_dirs).
  assert (Hrec : recorded_ok σ2).
  { apply runtestloop_recorded_ok.
    - eapply Forall_impl; [exact Hitems |]. intros item Hne. now rewrite captured_is_empty.
    - unfold recorded_ok. rewrite Hs1. cbn. rewrite Hn0. constructor. }
  destruct (runtestloop_names items σ1) as [Hsvg2 Hcomb2].
  fold σ2 in Hsvg2, Hcomb2. rewrite Hs1 in Hsvg2, Hcomb2. cbn in Hsvg2, Hcomb2.
  rewrite Hs0 in Hsvg2. rewrite Hc0 in Hcomb2.
  destruct (has_combined_dec σ2) as [Hsrc | Hno].
  - destruct (sessionfinish_statistics σ2 Hrec Hsrc Hprof2) as (s & Hfin & Hne).
    { intros Hco2 r Hr.
      assert (Hco1 : combined_only (self σ1) = true).
      { destruct (combined_only (self σ1)) eqn:Hco1; [reflexivity |].
        destruct (runtestloop_per_test (fun _ => True) items σ1 Hco1 Hprof1) as (Hco' & _).
        { apply Forall_forall. auto. }
        fold σ2 in Hco'. congruence. }
      assert (Hcfg : config profile_combined_only = true).
      { rewrite <- Hco0. rewrite Hs1 in Hco1. exact Hco1. }
      destruct (Hshared0 Hcfg) as [Hsp0 Hheap0].
      destruct (runtestloop_shared_heap items σ1 (length (heap w)) stats_empty Hco1)
        as [Hself2 Hheap2].
      { rewrite Hs1. exact Hsp0. }
      { rewrite Hh1. exact Hheap0. }
      fold σ2 in Hself2, Hheap2.
      rewrite Hself2, Hs1 in Hr. cbn in Hr. rewrite Hsp0 in Hr. injection Hr as <-.
      eexists. split; [exact Hheap2 |].
      rewrite fold_merge_is_empty, stats_empty_is_empty. cbn [andb].
      destruct items as [| item items]; [now specialize (Hsome Hcfg) |].
      apply Forall_cons in Hitems as [Hitem _]. cbn [map forallb]. now rewrite Hitem. }
    rewrite Hfin in Hrun.
    destruct (summary_after_finished σ2 s Hsvg2 Hne) as [Hret _].
    injection Hrun as Hrun. rewrite Hrun in Hret. exact Hret.
  - rewrite (sessionfinish_without_source σ2 Hno) in Hrun.
    rewrite (terminal_summary_silent σ2 Hcomb2 Hsvg2) in Hrun.
    now injection Hrun as <- _.
Qed.

(** X15: a combined-only session without any executed test fails in the
    terminal summary.  Where [prof] exists or can be created, session
    finish writes the statistics of the profiler that never ran, which are
    empty, to [prof/combined.prof]; the summary writes its header and then
    [pstats.Stats] refuses the empty file with a [TypeError]. *)
Theorem empty_combined_only_session_fails (config : Config) (w : World Stats) :
  config profile_combined_only = true →
  config profile = true ∨ config profile_svg = true →
  str "prof" ∈ dirs w ∨ mkdir_fault w = None →
  ∃ σ', session config [] w = Some (Raises (PyException "TypeError"), σ')
        ∧ files (world σ') !! combined_file = Some stats_empty
        ∧ terminal (world σ') =
          terminal w ++ [Written (profiling_header combined_file)].
Proof.
  intros Hcfg Hen Hdir. unfold session.
  destruct (pytest_configure config w) as [[plugin |] w0] eqn:Hconf.
  2:{ exfalso. unfold pytest_configure in Hconf.
      assert (existsb config [profile; profile_svg] = true) as Hex.
      { cbn. destruct Hen as [-> | ->]; [reflexivity | apply orb_true_iff; right; reflexivity]. }
      rewrite Hex in Hconf.
      destruct (__init__ _ _ w); discriminate Hconf. }
  destruct (configured config w plugin w0 Hconf)
    as (Hco0 & Hn0 & Hs0 & Hc0 & Hd0 & Hm0 & Hf0 & Ht0 & Hshared0).
  destruct (Hshared0 Hcfg) as [Hsp0 Hheap0].
  set (σ0 := MkState plugin w0) in *.
  destruct (sessionstart_creates σ0) as [Hret1 Hprof1].
  { cbn. now rewrite Hd0, Hm0. }
  pose proof (sessionstart_frame σ0) as (Hs1 & Hf1 & Hh1 & _ & Ht1).
  destruct (pytest_sessionstart σ0) as [[[] | e] σ1]; [| discriminate Hret1].
  cbn [fst snd runtestloop fold_left] in *.
  rewrite (sessionfinish_shared σ1 (length (heap w)))
    by (rewrite Hs1; cbn; congruence).
  rewrite bool_decide_eq_true_2 by exact Hprof1.
  rewrite Hh1. cbn [world σ0]. rewrite Hheap0. cbn [default from_option id].
  assert (Hfile : files (world (finished σ1 stats_empty)) !! combined_file
                  = Some stats_empty).
  { destruct (finished_fields σ1 stats_empty) as (-> & _). apply lookup_insert_eq. }
  rewrite (summary_empty_file (finished σ1 stats_empty) combined_file stats_empty);
    [| | discriminate | exact Hfile | exact stats_empty_is_empty].
  2:{ destruct (finished_fields σ1 stats_empty) as (_ & _ & _ & _ & -> & _). reflexivity. }
  eexists. split; [reflexivity |]. cbn [world]. split; [exact Hfile |].
  unfold finished. destruct (svg (self σ1)); cbn; rewrite Ht1; subst σ0; cbn;
    now rewrite Ht0.
Qed.
End WithLaws.

(** ** The further properties at concrete sessions *)

Lemma prof_path_inside_prof_witness :
  clean_filename (name test_slash) = clean_filename (name test_colon)
  ∧ prof_path test_slash = prof_path test_colon.
Proof.
  assert (Hsame : clean_filename (name test_slash) = clean_filename (name test_colon))
    by reflexivity.
  split; [exact Hsame |].
  exact (proj2 (proj2 (proj2 (prof_path_inside_prof test_slash test_colon))) Hsame).
Defined.

Lemma sessionstart_idempotent_witness :
  mkdir_fault (world (constructed false false fresh_world)) = None
  ∧ str "prof" ∈ dirs (world (pytest_sessionstart (constructed false false fresh_world)).2).
Proof.
  assert (Hfault : mkdir_fault (world (constructed false false fresh_world)) = None)
    by reflexivity.
  split; [exact Hfault |].
  exact (proj1 (proj2 (proj2 (sessionstart_idempotent _) Hfault))).
Defined.

Lemma sessionfinish_missing_record_witness :
  combined_only (self lost_record_state) = false
  ∧ prof_names (self lost_record_state) = [] ++ prof_path test_a :: [prof_path test_b]
  ∧ files (world lost_record_state) !! prof_path test_a = None
  ∧ pytest_sessionfinish lost_record_state = (Raises (IOError ENOENT), lost_record_state).
Proof.
  assert (Hco : combined_only (self lost_record_state) = false) by reflexivity.
  assert (Hnames : prof_names (self lost_record_state) =
                   [] ++ prof_path test_a :: [prof_path test_b])
    by (vm_compute; reflexivity).
  assert (Hbad : files (world lost_record_state) !! prof_path test_a = None)
    by (vm_compute; reflexivity).
  split; [exact Hco |]. split; [exact Hnames |]. split; [exact Hbad |].
  exact (sessionfinish_missing_record lost_record_state [] _ _ Hco Hnames
           (List.Forall_nil _) Hbad).
Defined.

Lemma pipeline_only_with_combined_witness :
  recorded_ok no_gprof2dot_state
  ∧ svg (self no_gprof2dot_state) = true ∧ has_combined no_gprof2dot_state
  ∧ str "prof" ∈ dirs (world no_gprof2dot_state)
  ∧ svg_name (self (pytest_sessionfinish no_gprof2dot_state).2) = Some svg_file
  ∧ (str "prof" ∉ dirs (world unwritable_shared_state))
  ∧ shell (world (pytest_sessionfinish unwritable_shared_state).2) = [].
Proof.
  assert (Hrec : recorded_ok no_gprof2dot_state) by (vm_compute; constructor).
  assert (Hsrc : has_combined no_gprof2dot_state) by (vm_compute; eauto).
  assert (Hprof : str "prof" ∈ dirs (world no_gprof2dot_state))
    by decide_by_computation.
  assert (Hrec' : recorded_ok unwritable_shared_state) by (vm_compute; constructor).
  assert (Hno : str "prof" ∉ dirs (world unwritable_shared_state))
    by decide_by_computation.
  split; [exact Hrec |]. split; [reflexivity |]. split; [exact Hsrc |].
  split; [exact Hprof |]. split.
  - exact (proj2 (proj1 (pipeline_only_with_combined no_gprof2dot_state Hrec)
                    eq_refl Hsrc Hprof)).
  - split; [exact Hno |].
    exact (proj1 (proj2 (pipeline_only_with_combined unwritable_shared_state Hrec')
                    (or_intror (or_intror Hno)))).
Defined.

Lemma writes_fail_without_prof_witness :
  (str "prof" ∉ dirs (world unwritable_per_test_state))
  ∧ combined_only (self unwritable_per_test_state) = false
  ∧ chain_returns test_a = true
  ∧ (pytest_pyfunc_call test_a unwritable_per_test_state).1 = Raises (IOError ENOENT).
Proof.
  assert (Hno : str "prof" ∉ dirs (world unwritable_per_test_state))
    by decide_by_computation.
  split; [exact Hno |]. split; [reflexivity |]. split; [reflexivity |].
  exact (proj1 (proj1 (writes_fail_without_prof unwritable_per_test_state test_a Hno)
                  eq_refl eq_refl)).
Defined.

Lemma summary_missing_file_witness :
  combined_name (self lost_combined_state) = Some combined_file
  ∧ combined_file ≠ []
  ∧ files (world lost_combined_state) !! combined_file = None
  ∧ (pytest_terminal_summary lost_combined_state).1 = Raises (IOError ENOENT).
Proof.
  assert (Hname : combined_name (self lost_combined_state) = Some combined_file)
    by reflexivity.
  assert (Hne : combined_file ≠ []) by discriminate.
  assert (Hfile : files (world lost_combined_state) !! combined_file = None)
    by (vm_compute; reflexivity).
  split; [exact Hname |]. split; [exact Hne |]. split; [exact Hfile |].
  rewrite (summary_missing_file lost_combined_state combined_file Hname Hne Hfile).
  reflexivity.
Defined.

Lemma combined_only_accumulates_witness :
  combined_only (self shared_state) = true
  ∧ str "prof" ∈ dirs (world shared_state)
  ∧ files (world (pytest_sessionfinish
             (runtestloop [test_a; test_failing] shared_state)).2)
      !! combined_file =
    Some (fold_left stats_merge (map chain_profile [test_a; test_failing]) stats_empty).
Proof.
  assert (Hprof : str "prof" ∈ dirs (world shared_state)) by decide_by_computation.
  split; [reflexivity |]. split; [exact Hprof |].
  exact (proj2 (combined_only_accumulates [test_a; test_failing]
                  shared_state 0%nat stats_empty eq_refl eq_refl eq_refl Hprof)).
Defined.

Lemma per_test_fresh_profilers_witness :
  combined_only (self per_test_state) = false
  ∧ heap (world (runtestloop [test_a; test_failing] per_test_state)) =
    [captured test_a; captured test_failing].
Proof.
  split; [reflexivity |].
  exact (per_test_fresh_profilers [test_a; test_failing] per_test_state eq_refl).
Defined.



Lemma summary_reports_combined_witness :
  recorded_ok two_tests_state ∧ has_combined two_tests_state
  ∧ svg_name (self two_tests_state) = None
  ∧ str "prof" ∈ dirs (world two_tests_state)
  ∧ (pytest_terminal_summary (pytest_sessionfinish two_tests_state).2).1 = Returns tt.
Proof.
  assert (Hrec : recorded_ok two_tests_state).
  { apply runtestloop_recorded_ok; [repeat constructor | vm_compute; constructor]. }
  assert (Hsrc : has_combined two_tests_state) by (vm_compute; discriminate).
  assert (Hsvg : svg_name (self two_tests_state) = None) by reflexivity.
  assert (Hprof : str "prof" ∈ dirs (world two_tests_state)) by decide_by_computation.
  split; [exact Hrec |]. split; [exact Hsrc |]. split; [exact Hsvg |].
  split; [exact Hprof |].
  destruct (summary_reports_combined two_tests_state Hrec Hsrc Hsvg Hprof)
    as (s & _ & Hret & _); [discriminate | exact Hret].
Defined.

Lemma session_ends_normally_witness :
  ∃ σ', session (config_of true false true) [test_failing; test_a] no_tools_world =
        Some (Returns tt, σ').
Proof.
  destruct (session (config_of true false true) [test_failing; test_a] no_tools_world)
    as [[o σ'] |] eqn:Hrun; [| discriminate Hrun].
  exists σ'.
  rewrite (session_ends_normally _ _ _ o σ' Hrun); [reflexivity | | | discriminate].
  - left. decide_by_computation.
  - repeat constructor.
Defined.

Lemma empty_combined_only_session_fails_witness :
  ∃ σ', session (config_of true true false) [] fresh_world =
        Some (Raises (PyException "TypeError"), σ').
Proof.
  destruct (empty_combined_only_session_fails (config_of true true false) fresh_world
              eq_refl (or_introl eq_refl) (or_intror eq_refl)) as (σ' & Hrun & _).
  exists σ'. exact Hrun.
Defined.
